(** * In-memory relationship caches (package mocks)

    A shallow embedding of the three mock caches of the things service:
    [thingCacheMock] (credential key -> thing id, thing id -> group id),
    [profileCacheMock] (profile id -> group id) and [groupCacheMock]
    (group id -> organisation id, and "group:member" -> role).

    Every method of the source takes the cache's mutex on entry and
    releases it on return, so each call is one atomic state transition.
    A method is modelled as a function from the receiver's state (and the
    arguments) to the values it returns; a mutating method also returns
    the new state of the receiver.  The [context.Context] argument is
    ignored by every method and is left out. *)

From Stdlib Require Import Ascii.
From stdpp Require Import gmap strings list fin_maps.

Open Scope string_scope.

(** ** Go values used by the caches *)

(** Modelled from the spec: package [errors] is not among the sources.  The
    caches only ever mention [errors.ErrNotFound]; [ErrOther] stands for
    every other value of Go's open [error] interface. *)
Inductive error : Type :=
  | ErrNotFound
  | ErrOther (msg : string).

(** A Go call either returns or panics (here: index out of range). *)
Inductive outcome (A : Type) : Type :=
  | Panic
  | Done (a : A).
Arguments Panic {A}.
Arguments Done {A} a.

(** The separator of the composite role key. *)
Definition sep : Ascii.ascii := ":"%char.

(** [strings.Split(s, sep)] for a one-byte separator, the only way the
    source calls it: the substrings between the separators, and a slice of
    length one holding [s] when [s] has no separator. *)
Fixpoint strings_Split (s : string) (c : Ascii.ascii) : list string :=
  match s with
  | EmptyString => [EmptyString]
  | String a rest =>
      if decide (a = c) then EmptyString :: strings_Split rest c
      else match strings_Split rest c with
           | [] => [String a EmptyString]
           | p :: ps => String a p :: ps
           end
  end.

(** Number of separators in an identifier, and identifiers without one. *)
Fixpoint count_sep (s : string) : nat :=
  match s with
  | EmptyString => 0
  | String a rest => (if decide (a = sep) then 1 else 0) + count_sep rest
  end.

Definition sepfree (s : string) : Prop := count_sep s = 0.

(** [for key, val := range m]: Go visits every entry once, in an order
    that is not specified and may differ from one loop to the next.  A
    method with such a loop takes the order as an argument [order], the
    rearrangement of the entries made for this loop; it is a legal one
    when it only permutes them. *)
Definition range (order : list (string * string) → list (string * string))
    (m : gmap string string) : list (string * string) :=
  order (map_to_list m).

Definition RangeOrder (order : list (string * string) → list (string * string)) : Prop :=
  ∀ l, order l ≡ₚ l.

(** A lookup returned a non-nil error. *)
Definition failed {A : Type} (res : A * option error) : Prop := res.2 ≠ None.

(** The contract of a point lookup against the entry of the map it reads:
    it fails exactly when there is no entry, a failure carries
    [ErrNotFound], and an entry is returned with a nil error. *)
Definition lookup_contract (res : string * option error) (entry : option string) : Prop :=
  (failed res ↔ entry = None) ∧
  (∀ e, res.2 = Some e → e = ErrNotFound) ∧
  (∀ v, entry = Some v → res = (v, None)).

(** ** thingCacheMock *)
Module thingCacheMock.

Record t : Type := mk {
  things : gmap string string;
  groups : gmap string string
}.

Definition NewThingCache : t := {| things := ∅; groups := ∅ |}.

Definition Save (tcm : t) (key id : string) : t * option error :=
  ({| things := <[key := id]> (things tcm); groups := groups tcm |}, None).

Definition ID (tcm : t) (key : string) : string * option error :=
  match things tcm !! key with
  | None => ("", Some ErrNotFound)
  | Some id => (id, None)
  end.

(** The loop of [Remove] over the entries as visited: the first one whose
    value is [id] is deleted and the method returns at once. *)
Fixpoint Remove_loop (kvs : list (string * string)) (m : gmap string string)
    (id : string) : gmap string string :=
  match kvs with
  | [] => m
  | (key, val) :: rest =>
      if decide (val = id) then delete key m
      else Remove_loop rest m id
  end.

Definition Remove (order : list (string * string) → list (string * string))
    (tcm : t) (id : string) : t * option error :=
  ({| things := Remove_loop (range order (things tcm)) (things tcm) id;
      groups := groups tcm |}, None).

Definition SaveGroup (tcm : t) (thingID groupID : string) : t * option error :=
  ({| things := things tcm; groups := <[thingID := groupID]> (groups tcm) |}, None).

Definition ViewGroup (tcm : t) (thingID : string) : string * option error :=
  match groups tcm !! thingID with
  | None => ("", Some ErrNotFound)
  | Some groupID => (groupID, None)
  end.

Definition RemoveGroup (tcm : t) (thingID : string) : t * option error :=
  ({| things := things tcm; groups := delete thingID (groups tcm) |}, None).

(** States a thing cache can be in: the fresh one, and what the mutating
    methods make of a reachable one. *)
Inductive reachable : t → Prop :=
  | reach_New : reachable NewThingCache
  | reach_Save tcm key id :
      reachable tcm → reachable (Save tcm key id).1
  | reach_Remove tcm order id :
      reachable tcm → RangeOrder order →
      reachable (Remove order tcm id).1
  | reach_SaveGroup tcm thingID groupID :
      reachable tcm → reachable (SaveGroup tcm thingID groupID).1
  | reach_RemoveGroup tcm thingID :
      reachable tcm → reachable (RemoveGroup tcm thingID).1.

End thingCacheMock.

(** ** profileCacheMock *)
Module profileCacheMock.

Record t : Type := mk {
  groups : gmap string string
}.

Definition NewProfileCache : t := {| groups := ∅ |}.

Definition SaveGroup (ccm : t) (profileID groupID : string) : t * option error :=
  ({| groups := <[profileID := groupID]> (groups ccm) |}, None).

Definition ViewGroup (ccm : t) (profileID : string) : string * option error :=
  match groups ccm !! profileID with
  | None => ("", Some ErrNotFound)
  | Some groupID => (groupID, None)
  end.

Definition RemoveGroup (ccm : t) (profileID : string) : t * option error :=
  ({| groups := delete profileID (groups ccm) |}, None).

End profileCacheMock.

(** ** groupCacheMock *)
Module groupCacheMock.

Record t : Type := mk {
  orgs : gmap string string;
  roles : gmap string string
}.

Definition NewGroupCache : t := {| orgs := ∅; roles := ∅ |}.

(** [fmt.Sprintf("%s:%s", groupID, memberID)] *)
Definition rKey (groupID memberID : string) : string :=
  groupID +:+ String sep memberID.

Definition SaveOrg (gcm : t) (groupID orgID : string) : t * option error :=
  ({| orgs := <[groupID := orgID]> (orgs gcm); roles := roles gcm |}, None).

Definition ViewOrg (gcm : t) (groupID : string) : string * option error :=
  match orgs gcm !! groupID with
  | None => ("", Some ErrNotFound)
  | Some orgID => (orgID, None)
  end.

Definition RemoveOrg (gcm : t) (groupID : string) : t * option error :=
  ({| orgs := delete groupID (orgs gcm); roles := roles gcm |}, None).

Definition SaveRole (gcm : t) (groupID memberID role : string) : t * option error :=
  let key := rKey groupID memberID in
  ({| orgs := orgs gcm; roles := <[key := role]> (roles gcm) |}, None).

Definition ViewRole (gcm : t) (groupID memberID : string) : string * option error :=
  let key := rKey groupID memberID in
  match roles gcm !! key with
  | None => ("", Some ErrNotFound)
  | Some role => (role, None)
  end.

Definition RemoveRole (gcm : t) (groupID memberID : string) : t * option error :=
  let key := rKey groupID memberID in
  ({| orgs := orgs gcm; roles := delete key (roles gcm) |}, None).

(** The loop of [GroupMemberships] over the keys as visited:
    [parts[1]] and [parts[0]] panic when the index is out of range. *)
Fixpoint GroupMemberships_loop (ks : list string) (memberID : string)
    (groups : list string) : outcome (list string) :=
  match ks with
  | [] => Done groups
  | k :: rest =>
      let parts := strings_Split k sep in
      match parts !! 1 with
      | None => Panic
      | Some p1 =>
          if decide (p1 = memberID) then
            match parts !! 0 with
            | None => Panic
            | Some p0 => GroupMemberships_loop rest memberID (groups ++ [p0])
            end
          else GroupMemberships_loop rest memberID groups
      end
  end.

(** What one visited key adds to [groups]: [parts[0]] when [parts[1]]
    is the member asked for (and both indices are in range). *)
Definition contributes (memberID k : string) : option string :=
  let parts := strings_Split k sep in
  match parts !! 1 with
  | None => None
  | Some p1 => if decide (p1 = memberID) then parts !! 0 else None
  end.

Definition GroupMemberships (order : list (string * string) → list (string * string))
    (gcm : t) (memberID : string) : outcome (list string * option error) :=
  match GroupMemberships_loop (range order (roles gcm)).*1 memberID [] with
  | Panic => Panic
  | Done groups => Done (groups, None)
  end.

(** Mutating calls on a group cache, and the state after a sequence of
    them on a fresh cache. *)
Inductive call : Type :=
  | CallSaveOrg (groupID orgID : string)
  | CallRemoveOrg (groupID : string)
  | CallSaveRole (groupID memberID role : string)
  | CallRemoveRole (groupID memberID : string).

Definition step (gcm : t) (c : call) : t :=
  match c with
  | CallSaveOrg g o => (SaveOrg gcm g o).1
  | CallRemoveOrg g => (RemoveOrg gcm g).1
  | CallSaveRole g m r => (SaveRole gcm g m r).1
  | CallRemoveRole g m => (RemoveRole gcm g m).1
  end.

Definition run (cs : list call) : t := foldl step NewGroupCache cs.

(** A call that stores identifiers stores separator-free ones. *)
Definition saves_sepfree (c : call) : Prop :=
  match c with
  | CallSaveRole g m _ => sepfree g ∧ sepfree m
  | _ => True
  end.

End groupCacheMock.

(** ** The role cache as the specification words it

    Role assignments keyed by the pair (groupID, memberID) itself, with
    the same calls replayed on it; [groupCacheMock] is compared with it. *)
Module RoleCacheSpec.

Definition Save (s : gmap (string * string) string) (groupID memberID role : string)
    : gmap (string * string) string :=
  <[(groupID, memberID) := role]> s.

Definition Remove (s : gmap (string * string) string) (groupID memberID : string)
    : gmap (string * string) string :=
  delete (groupID, memberID) s.

Definition Resolve (s : gmap (string * string) string) (groupID memberID : string)
    : option string :=
  s !! (groupID, memberID).

(** [memberID] holds some role in [groupID]. *)
Definition assigned (s : gmap (string * string) string) (groupID memberID : string) : Prop :=
  is_Some (Resolve s groupID memberID).

Definition step (s : gmap (string * string) string) (c : groupCacheMock.call)
    : gmap (string * string) string :=
  match c with
  | groupCacheMock.CallSaveRole g m r => Save s g m r
  | groupCacheMock.CallRemoveRole g m => Remove s g m
  | _ => s
  end.

Definition run (cs : list groupCacheMock.call) : gmap (string * string) string :=
  foldl step ∅ cs.

End RoleCacheSpec.

(** ** Joining parts with the separator

    The inverse of [strings_Split], used to say what a split returns. *)
Fixpoint join_sep (parts : list string) : string :=
  match parts with
  | [] => EmptyString
  | [p] => p
  | p :: rest => p +:+ String sep (join_sep rest)
  end.

(** ** loggingMiddleware (package api of the CoAP adapter)

    The middleware wraps a [coap.Service] and a logger.  Both are
    interfaces declared outside the sources read here: the service is a
    record of its three methods over a state [S] of its own, each
    returning the new state and either an error value (nil or not) or a
    panic; the logger is represented by the calls made on it, in order.
    [time.Since(begin)], as printed by the verb [%s], is the argument
    [took] of each method; [errText] is the method [Error] of the error
    interface.  A [coap.Client] is represented by what a call of its
    [Token()] does: it returns a string, or it panics, as it does on a nil
    client. *)
Module loggingMiddleware.

Record Client : Type := mkClient {
  Token : outcome string
}.

Record Message : Type := mkMessage {
  ProfileID : string;
  Subtopic : string
}.

Inductive level : Type := LevelWarn | LevelInfo.

Record Service (S : Type) : Type := mkService {
  svcPublish : S → string → Message → S * outcome (option error);
  svcSubscribe : S → string → string → string → Client → S * outcome (option error);
  svcUnsubscribe : S → string → string → string → string → S * outcome (option error)
}.
Arguments svcPublish {S} _ _ _ _.
Arguments svcSubscribe {S} _ _ _ _ _ _.
Arguments svcUnsubscribe {S} _ _ _ _ _ _.

Record t (S : Type) : Type := mk {
  logger : list (level * string);
  svc : S
}.
Arguments mk {S} _ _.
Arguments logger {S} _.
Arguments svc {S} _.

(** The named result [err] as the deferred function sees it: what the
    service returned, and still nil when the service panicked before the
    return statement assigned it. *)
Definition named_err (res : outcome (option error)) : option error :=
  match res with
  | Panic => None
  | Done err => err
  end.

(** The tail shared by the three deferred functions. *)
Definition log_result (errText : error → string) (lg : list (level * string))
    (message : string) (err : option error) : list (level * string) :=
  match err with
  | Some e => (lg ++ [(LevelWarn, message +:+ " with error: " +:+ errText e +:+ ".")])%list
  | None => (lg ++ [(LevelInfo, message +:+ " without errors.")])%list
  end.

Definition Publish {S : Type} (impl : Service S) (errText : error → string)
    (took : string) (lm : t S) (key : string) (msg : Message)
    : t S * outcome (option error) :=
  let '(s', res) := svcPublish impl (svc lm) key msg in
  let destProfile :=
    if decide (Subtopic msg ≠ "") then ProfileID msg +:+ "." +:+ Subtopic msg
    else ProfileID msg in
  let message := "Method publish to " +:+ destProfile +:+ " took " +:+ took
                 +:+ " to complete" in
  (mk (log_result errText (logger lm) message (named_err res)) s', res).

(** The deferred function of [Subscribe] calls [c.Token()] to build the
    message, after the service has returned or panicked; if that call
    panics the deferred function stops before any call on the logger and
    the method panics. *)
Definition Subscribe {S : Type} (impl : Service S) (errText : error → string)
    (took : string) (lm : t S) (key profileID subtopic : string) (c : Client)
    : t S * outcome (option error) :=
  let '(s', res) := svcSubscribe impl (svc lm) key profileID subtopic c in
  match Token c with
  | Panic => (mk (logger lm) s', Panic)
  | Done token =>
      let message := "Method subscribe for client " +:+ token +:+ " took " +:+ took
                     +:+ " to complete" in
      (mk (log_result errText (logger lm) message (named_err res)) s', res)
  end.

Definition Unsubscribe {S : Type} (impl : Service S) (errText : error → string)
    (took : string) (lm : t S) (key profileID subtopic token : string)
    : t S * outcome (option error) :=
  let '(s', res) := svcUnsubscribe impl (svc lm) key profileID subtopic token in
  let message := "Method unsubscribe for the client " +:+ token +:+ " took " +:+ took
                 +:+ " to complete" in
  (mk (log_result errText (logger lm) message (named_err res)) s', res).


End loggingMiddleware.

(** * Properties *)

(** ** Strings: separators, splitting and the composite key *)

Lemma count_sep_app (s1 s2 : string) :
  count_sep (s1 +:+ s2) = count_sep s1 + count_sep s2.
Proof. induction s1 as [|a s1 IH]; simpl; [done|]. rewrite IH. lia. Qed.

Lemma count_sep_rKey (g m : string) :
  count_sep (groupCacheMock.rKey g m) = count_sep g + S (count_sep m).
Proof.
  unfold groupCacheMock.rKey. rewrite count_sep_app. done.
Qed.

Lemma strings_Split_length (s : string) :
  length (strings_Split s sep) = S (count_sep s).
Proof.
  induction s as [|a s IH]; simpl; [done|].
  case_decide; simpl; [by rewrite IH|].
  destruct (strings_Split s sep); simpl in *; lia.
Qed.

Lemma strings_Split_sepfree (s : string) :
  sepfree s → strings_Split s sep = [s].
Proof.
  unfold sepfree. induction s as [|a s IH]; simpl; [done|].
  case_decide; [lia|]. intros Hs. by rewrite IH.
Qed.

Lemma strings_Split_rKey (g m : string) :
  sepfree g →
  strings_Split (groupCacheMock.rKey g m) sep = g :: strings_Split m sep.
Proof.
  unfold sepfree, groupCacheMock.rKey.
  induction g as [|a g IH]; simpl.
  - done.
  - case_decide; [lia|]. intros Hg. by rewrite IH.
Qed.

(** The composite key determines the pair when the group identifiers have
    no separator: the first separator of the key is the joining one. *)
Lemma rKey_inj_group (g m g' m' : string) :
  sepfree g → sepfree g' →
  groupCacheMock.rKey g m = groupCacheMock.rKey g' m' → g = g' ∧ m = m'.
Proof.
  unfold sepfree, groupCacheMock.rKey. revert g'.
  induction g as [|a g IH]; intros [|a' g']; simpl.
  - intros _ _ [= ->]. done.
  - case_decide; [lia|]. intros _ _ [= Ha _]. done.
  - case_decide; [lia|]. intros _ _ [= Ha _]. done.
  - case_decide; [lia|]. case_decide; [lia|].
    intros Hg Hg' [= -> Heq].
    destruct (IH g' Hg Hg' Heq) as [-> ->]. done.
Qed.

(** Likewise when the member identifiers have none: the last separator of
    the key is the joining one. *)
Lemma rKey_inj_member (g m g' m' : string) :
  sepfree m → sepfree m' →
  groupCacheMock.rKey g m = groupCacheMock.rKey g' m' → g = g' ∧ m = m'.
Proof.
  unfold sepfree. intros Hm Hm'. revert g'.
  induction g as [|a g IH]; intros [|a' g']; unfold groupCacheMock.rKey; simpl.
  - intros [= ->]. done.
  - intros [= _ Heq]. pose proof (count_sep_rKey g' m') as Hc.
    unfold groupCacheMock.rKey in Hc. rewrite <- Heq in Hc. lia.
  - intros [= _ Heq]. pose proof (count_sep_rKey g m) as Hc.
    unfold groupCacheMock.rKey in Hc. rewrite Heq in Hc. lia.
  - intros [= -> Heq]. destruct (IH g' Heq) as [-> ->]. done.
Qed.

(** A key with exactly one separator is the key of one pair only. *)
Lemma rKey_inj_single (g m g' m' : string) :
  count_sep (groupCacheMock.rKey g m) = 1 →
  groupCacheMock.rKey g m = groupCacheMock.rKey g' m' → g = g' ∧ m = m'.
Proof.
  intros Hc Heq. pose proof Hc as Hc'. rewrite Heq in Hc'.
  rewrite count_sep_rKey in Hc, Hc'.
  apply rKey_inj_group; unfold sepfree; (lia || done).
Qed.

(** ** Range orders *)

Lemma RangeOrder_elem (m : gmap string string) order k v :
  RangeOrder order → (k, v) ∈ range order m ↔ m !! k = Some v.
Proof. intros Ho. unfold range. rewrite (Ho _). apply elem_of_map_to_list. Qed.

Lemma RangeOrder_key (m : gmap string string) order k :
  RangeOrder order → k ∈ (range order m).*1 ↔ is_Some (m !! k).
Proof.
  intros Ho. rewrite list_elem_of_fmap. split.
  - intros [[k' v] [-> Hin]]. exists v. by apply (RangeOrder_elem m order).
  - intros [v Hv]. exists (k, v). split; [done|]. by apply (RangeOrder_elem m order).
Qed.

Lemma RangeOrder_NoDup (m : gmap string string) order :
  RangeOrder order → NoDup (range order m).*1.
Proof. intros Ho. unfold range. rewrite (Ho _). apply NoDup_fst_map_to_list. Qed.

Lemma NoDup_omap_inj {A B : Type} (f : A → option B) (l : list A) :
  (∀ x y z, x ∈ l → y ∈ l → f x = Some z → f y = Some z → x = y) →
  NoDup l → NoDup (omap f l).
Proof.
  intros Hinj Hnd. induction Hnd as [|x l Hx Hnd IH]; simpl; [constructor|].
  assert (NoDup (omap f l)) as IH'.
  { apply IH. intros a b z Ha Hb. apply Hinj; by right. }
  destruct (f x) as [z|] eqn:Hfx; [|done].
  constructor; [|done].
  rewrite list_elem_of_omap. intros [y [Hy Hfy]].
  assert (x = y) as -> by (eapply Hinj; [by left|by right|done|done]).
  done.
Qed.

(** ** Lookups and single-key updates *)

Lemma lookup_contract_intro (entry : option string) :
  lookup_contract
    (match entry with None => ("", Some ErrNotFound) | Some v => (v, None) end)
    entry.
Proof.
  unfold lookup_contract, failed. destruct entry as [v|]; simpl.
  - split; [|split].
    + split; [done|]. intros [=].
    + intros e [=].
    + intros v' [= ->]. done.
  - split; [|split].
    + split; done.
    + intros e [= <-]. done.
    + intros v [=].
Qed.

(** ** thingCacheMock.Remove *)

(** The loop either meets no entry with the value and changes nothing, or
    deletes the key of one visited entry with the value. *)
Lemma Remove_loop_cases kvs (m : gmap string string) id :
  ((∀ k v, (k, v) ∈ kvs → v ≠ id) ∧ thingCacheMock.Remove_loop kvs m id = m) ∨
  (∃ k, (k, id) ∈ kvs ∧ thingCacheMock.Remove_loop kvs m id = delete k m).
Proof.
  induction kvs as [|[key val] rest IH]; simpl.
  - left. split; [|done]. intros k v Hin. by apply elem_of_nil in Hin.
  - case_decide as Hval.
    + right. exists key. subst val. split; [by left|done].
    + destruct IH as [[Hno Heq]|[k [Hin Heq]]].
      * left. split; [|done]. intros k v Hin.
        apply elem_of_cons in Hin as [[= -> ->]|Hin]; [done|]. by eapply Hno.
      * right. exists k. split; [by right|done].
Qed.

Lemma Remove_loop_absent order (m : gmap string string) id :
  RangeOrder order → (∀ k, m !! k ≠ Some id) →
  thingCacheMock.Remove_loop (range order m) m id = m.
Proof.
  intros Ho Hno.
  destruct (Remove_loop_cases (range order m) m id) as [[_ Heq]|[k [Hin _]]]; [done|].
  apply (RangeOrder_elem m order) in Hin; [|done]. by destruct (Hno k).
Qed.

(** ** groupCacheMock: the keys of the roles map *)

Lemma run_snoc cs c :
  groupCacheMock.run (cs ++ [c]) = groupCacheMock.step (groupCacheMock.run cs) c.
Proof. apply foldl_snoc. Qed.

Lemma spec_run_snoc cs c :
  RoleCacheSpec.run (cs ++ [c]) = RoleCacheSpec.step (RoleCacheSpec.run cs) c.
Proof. apply foldl_snoc. Qed.

(** Only [SaveRole] adds a key, and it adds a joined one. *)
Lemma roles_key_joined cs k :
  is_Some (groupCacheMock.roles (groupCacheMock.run cs) !! k) →
  ∃ g m, k = groupCacheMock.rKey g m.
Proof.
  induction cs as [|c cs IH] using rev_ind.
  - simpl. rewrite lookup_empty. by intros [? ?].
  - rewrite run_snoc. destruct c as [g o|g|g m r|g m]; simpl; try done.
    + rewrite lookup_insert. case_decide as Hk; [|done]. intros _. by exists g, m.
    + rewrite lookup_delete. case_decide; [|done]. by intros [? ?].
Qed.

Lemma roles_key_sepfree cs k :
  Forall groupCacheMock.saves_sepfree cs →
  is_Some (groupCacheMock.roles (groupCacheMock.run cs) !! k) →
  ∃ g m, sepfree g ∧ sepfree m ∧ k = groupCacheMock.rKey g m.
Proof.
  induction cs as [|c cs IH] using rev_ind; intros Hcs.
  - simpl. rewrite lookup_empty. by intros [? ?].
  - apply Forall_app in Hcs as [Hcs Hc]. rewrite Forall_singleton in Hc.
    rewrite run_snoc. destruct c as [g o|g|g m r|g m]; simpl; try by apply IH.
    + rewrite lookup_insert. case_decide as Hk; [|by apply IH].
      intros _. simpl in Hc. destruct Hc as [Hg Hm]. by exists g, m.
    + rewrite lookup_delete. case_decide; [|by apply IH]. by intros [? ?].
Qed.

Lemma roles_key_single cs k :
  Forall groupCacheMock.saves_sepfree cs →
  is_Some (groupCacheMock.roles (groupCacheMock.run cs) !! k) → count_sep k = 1.
Proof.
  intros Hcs Hk. destruct (roles_key_sepfree cs k Hcs Hk) as (g & m & Hg & Hm & ->).
  rewrite count_sep_rKey. unfold sepfree in *. lia.
Qed.

(** While only separator-free identifiers are saved, the roles map holds
    under [rKey g m] what the pair-keyed map holds under [(g, m)]. *)
Lemma roles_refine cs g m :
  Forall groupCacheMock.saves_sepfree cs →
  groupCacheMock.roles (groupCacheMock.run cs) !! groupCacheMock.rKey g m
  = RoleCacheSpec.run cs !! (g, m).
Proof.
  induction cs as [|c cs IH] using rev_ind; intros Hcs.
  - simpl. by rewrite !lookup_empty.
  - pose proof Hcs as Hall.
    apply Forall_app in Hcs as [Hcs Hc]. rewrite Forall_singleton in Hc.
    rewrite run_snoc, spec_run_snoc.
    destruct c as [g0 o|g0|g0 m0 r|g0 m0]; simpl; try by apply IH.
    + unfold RoleCacheSpec.Save. rewrite !lookup_insert.
      simpl in Hc. destruct Hc as [Hg0 Hm0].
      destruct (decide (groupCacheMock.rKey g0 m0 = groupCacheMock.rKey g m)) as [Hk|Hk];
        destruct (decide ((g0, m0) = (g, m))) as [Hp|Hp]; try done.
      * destruct (rKey_inj_single g0 m0 g m) as [-> ->]; [|done|done].
        rewrite count_sep_rKey. unfold sepfree in *. lia.
      * by inversion Hp; subst.
      * by apply IH.
    + unfold RoleCacheSpec.Remove. rewrite !lookup_delete.
      destruct (decide (groupCacheMock.rKey g0 m0 = groupCacheMock.rKey g m)) as [Hk|Hk];
        destruct (decide ((g0, m0) = (g, m))) as [Hp|Hp]; try done.
      * rewrite <- (IH Hcs).
        destruct (groupCacheMock.roles (groupCacheMock.run cs) !! groupCacheMock.rKey g m)
          as [r|] eqn:Hr; [|done].
        assert (count_sep (groupCacheMock.rKey g m) = 1) as Hc1.
        { apply (roles_key_single cs); [done|]. by rewrite Hr. }
        destruct (rKey_inj_single g m g0 m0) as [-> ->]; done.
      * by inversion Hp; subst.
      * by apply IH.
Qed.

(** ** groupCacheMock.GroupMemberships *)

Lemma GroupMemberships_loop_spec ks memberID groups :
  Forall (λ k : string, (2 ≤ length (strings_Split k sep))%nat) ks →
  groupCacheMock.GroupMemberships_loop ks memberID groups
  = Done (groups ++ omap (groupCacheMock.contributes memberID) ks)%list.
Proof.
  intros Hks. revert groups.
  induction Hks as [|k ks Hk Hks IH]; intros groups; simpl.
  - by rewrite app_nil_r.
  - unfold groupCacheMock.contributes.
    destruct (strings_Split k sep) as [|p0 [|p1 ps]]; simpl in *; [lia|lia|].
    case_decide; [|by apply IH].
    rewrite IH. by rewrite <- app_assoc.
Qed.

Lemma contributes_rKey g m memberID :
  sepfree g → sepfree m →
  groupCacheMock.contributes memberID (groupCacheMock.rKey g m)
  = if decide (m = memberID) then Some g else None.
Proof.
  intros Hg Hm. unfold groupCacheMock.contributes.
  rewrite strings_Split_rKey, strings_Split_sepfree; done.
Qed.

(** In every state reached from a fresh cache the loop returns, and it
    returns the contributions of the keys in the order visited. *)
Lemma GroupMemberships_returns cs order memberID :
  RangeOrder order →
  groupCacheMock.GroupMemberships order (groupCacheMock.run cs) memberID
  = Done (omap (groupCacheMock.contributes memberID)
            (range order (groupCacheMock.roles (groupCacheMock.run cs))).*1, None).
Proof.
  intros Ho. unfold groupCacheMock.GroupMemberships.
  rewrite GroupMemberships_loop_spec; [done|].
  apply Forall_forall. intros k Hk.
  apply (RangeOrder_key _ order k Ho) in Hk.
  destruct (roles_key_joined cs k Hk) as (g & m & ->).
  rewrite strings_Split_length, count_sep_rKey. lia.
Qed.

(** ** The roles map against the pair-keyed map *)

Lemma RemoveRole_absent_noop gcm g m :
  groupCacheMock.roles gcm !! groupCacheMock.rKey g m = None →
  (groupCacheMock.RemoveRole gcm g m).1 = gcm.
Proof.
  intros Hk. destruct gcm as [og rl]. unfold groupCacheMock.RemoveRole; simpl in *.
  by rewrite delete_id.
Qed.

(** While only separator-free identifiers are saved, ViewRole answers for
    the pair: it keeps the lookup contract against the pair-keyed map. *)
Lemma ViewRole_refines cs g m :
  Forall groupCacheMock.saves_sepfree cs →
  lookup_contract (groupCacheMock.ViewRole (groupCacheMock.run cs) g m)
    (RoleCacheSpec.Resolve (RoleCacheSpec.run cs) g m).
Proof.
  intros Hcs. unfold groupCacheMock.ViewRole, RoleCacheSpec.Resolve; simpl.
  rewrite (roles_refine cs g m Hcs). apply lookup_contract_intro.
Qed.

(** And removing a pair that has no assignment changes nothing. *)
Lemma RemoveRole_unassigned_noop cs g m :
  Forall groupCacheMock.saves_sepfree cs →
  ¬ RoleCacheSpec.assigned (RoleCacheSpec.run cs) g m →
  (groupCacheMock.RemoveRole (groupCacheMock.run cs) g m).1 = groupCacheMock.run cs.
Proof.
  intros Hcs Hno. apply RemoveRole_absent_noop.
  rewrite (roles_refine cs g m Hcs).
  unfold RoleCacheSpec.assigned, RoleCacheSpec.Resolve in Hno.
  destruct (RoleCacheSpec.run cs !! (g, m)) as [r|] eqn:Hr; [|done].
  destruct Hno. by exists r.
Qed.

(** * The claims *)

(** C4: in each of the five maps, Save followed by Resolve of the same key
    returns the saved value with a nil error; for the role cache,
    SaveRole(g, m, role) then ViewRole(g, m) returns role, and after
    RemoveRole(g, m) the same ViewRole fails with ErrNotFound. *)
Theorem save_then_resolve tcm ccm gcm key value memberID :
  thingCacheMock.ID (thingCacheMock.Save tcm key value).1 key = (value, None) ∧
  thingCacheMock.ViewGroup (thingCacheMock.SaveGroup tcm key value).1 key = (value, None) ∧
  profileCacheMock.ViewGroup (profileCacheMock.SaveGroup ccm key value).1 key
    = (value, None) ∧
  groupCacheMock.ViewOrg (groupCacheMock.SaveOrg gcm key value).1 key = (value, None) ∧
  groupCacheMock.ViewRole (groupCacheMock.SaveRole gcm key memberID value).1 key memberID
    = (value, None) ∧
  groupCacheMock.ViewRole
    (groupCacheMock.RemoveRole
       (groupCacheMock.SaveRole gcm key memberID value).1 key memberID).1 key memberID
    = ("", Some ErrNotFound) ∧
  groupCacheMock.ViewRole (groupCacheMock.RemoveRole gcm key memberID).1 key memberID
    = ("", Some ErrNotFound).
Proof.
  unfold thingCacheMock.ID, thingCacheMock.ViewGroup, profileCacheMock.ViewGroup,
    groupCacheMock.ViewOrg, groupCacheMock.ViewRole; simpl.
  rewrite !lookup_insert_eq, !lookup_delete_eq. done.
Qed.

(** C5: Save overwrites: after Save(key, id1); Save(key, id2) the lookup of
    key returns id2, in each of the five maps; and in every reachable state
    of the thing cache a range over the credential map meets each key once,
    so no key has two values. *)
Theorem Save_overwrites tcm tcm0 ccm gcm key id1 id2 memberID order :
  id1 ≠ id2 →
  thingCacheMock.reachable tcm →
  RangeOrder order →
  thingCacheMock.ID
    (thingCacheMock.Save (thingCacheMock.Save tcm0 key id1).1 key id2).1 key
    = (id2, None) ∧
  thingCacheMock.ViewGroup
    (thingCacheMock.SaveGroup (thingCacheMock.SaveGroup tcm0 key id1).1 key id2).1 key
    = (id2, None) ∧
  profileCacheMock.ViewGroup
    (profileCacheMock.SaveGroup (profileCacheMock.SaveGroup ccm key id1).1 key id2).1 key
    = (id2, None) ∧
  groupCacheMock.ViewOrg
    (groupCacheMock.SaveOrg (groupCacheMock.SaveOrg gcm key id1).1 key id2).1 key
    = (id2, None) ∧
  groupCacheMock.ViewRole
    (groupCacheMock.SaveRole
       (groupCacheMock.SaveRole gcm key memberID id1).1 key memberID id2).1 key memberID
    = (id2, None) ∧
  NoDup (range order (thingCacheMock.things tcm)).*1 ∧
  (∀ k v1 v2,
     (k, v1) ∈ range order (thingCacheMock.things tcm) →
     (k, v2) ∈ range order (thingCacheMock.things tcm) → v1 = v2).
Proof.
  intros _ _ Ho.
  unfold thingCacheMock.ID, thingCacheMock.ViewGroup, profileCacheMock.ViewGroup,
    groupCacheMock.ViewOrg, groupCacheMock.ViewRole; simpl.
  rewrite !lookup_insert_eq.
  repeat (split; [done|]). split; [by eapply RangeOrder_NoDup|].
  intros k v1 v2 H1 H2.
  apply (RangeOrder_elem _ order k v1 Ho) in H1.
  apply (RangeOrder_elem _ order k v2 Ho) in H2.
  congruence.
Qed.

Lemma Save_overwrites_witness :
  let tcm := (thingCacheMock.Save thingCacheMock.NewThingCache "key-A" "dev-1").1 in
  thingCacheMock.ID (thingCacheMock.Save tcm "key-A" "dev-2").1 "key-A"
    = ("dev-2", None) ∧
  NoDup (range reverse (thingCacheMock.things tcm)).*1.
Proof.
  intros tcm.
  destruct (Save_overwrites tcm thingCacheMock.NewThingCache
              profileCacheMock.NewProfileCache groupCacheMock.NewGroupCache
              "key-A" "dev-1" "dev-2" "user-7" reverse)
    as (H1 & _ & _ & _ & _ & H2 & _).
  - discriminate.
  - apply thingCacheMock.reach_Save, thingCacheMock.reach_New.
  - exact reverse_Permutation.
  - split; [exact H1|exact H2].
Defined.

(** C6, as the code has it: every point lookup fails exactly when the map
    has no entry under the key it reads, a failing lookup returns
    ErrNotFound and no other error, and a present entry is returned with a
    nil error.  For ID, ViewGroup (both caches) and ViewOrg the key read is
    the requested key.  ViewRole reads the joined key of the requested
    pair; while every identifier passed to SaveRole is free of the
    separator ':', it fails exactly when the pair has no role assignment. *)
Theorem lookup_fails_iff_absent tcm ccm gcm cs key memberID :
  lookup_contract (thingCacheMock.ID tcm key) (thingCacheMock.things tcm !! key) ∧
  lookup_contract (thingCacheMock.ViewGroup tcm key) (thingCacheMock.groups tcm !! key) ∧
  lookup_contract (profileCacheMock.ViewGroup ccm key) (profileCacheMock.groups ccm !! key) ∧
  lookup_contract (groupCacheMock.ViewOrg gcm key) (groupCacheMock.orgs gcm !! key) ∧
  lookup_contract (groupCacheMock.ViewRole gcm key memberID)
    (groupCacheMock.roles gcm !! groupCacheMock.rKey key memberID) ∧
  (Forall groupCacheMock.saves_sepfree cs →
   lookup_contract (groupCacheMock.ViewRole (groupCacheMock.run cs) key memberID)
     (RoleCacheSpec.Resolve (RoleCacheSpec.run cs) key memberID)).
Proof.
  split; [apply lookup_contract_intro|].
  split; [apply lookup_contract_intro|].
  split; [apply lookup_contract_intro|].
  split; [apply lookup_contract_intro|].
  split; [apply lookup_contract_intro|].
  apply ViewRole_refines.
Qed.

Lemma lookup_fails_iff_absent_witness :
  let cs := [groupCacheMock.CallSaveRole "grp-9" "user-7" "editor"] in
  failed (thingCacheMock.ID thingCacheMock.NewThingCache "key-A") ∧
  failed (groupCacheMock.ViewRole (groupCacheMock.run cs) "grp-1" "user-7") ∧
  groupCacheMock.ViewRole (groupCacheMock.run cs) "grp-9" "user-7" = ("editor", None).
Proof.
  intros cs.
  destruct (lookup_fails_iff_absent thingCacheMock.NewThingCache
              profileCacheMock.NewProfileCache groupCacheMock.NewGroupCache
              cs "grp-1" "user-7") as ((Hiff & _) & _ & _ & _ & _ & Hmiss).
  destruct (lookup_fails_iff_absent thingCacheMock.NewThingCache
              profileCacheMock.NewProfileCache groupCacheMock.NewGroupCache
              cs "grp-9" "user-7") as (_ & _ & _ & _ & _ & Hhit).
  assert (Forall groupCacheMock.saves_sepfree cs) as Hcs.
  { repeat constructor; reflexivity. }
  split; [apply Hiff; reflexivity|]. split.
  - apply (proj1 (Hmiss Hcs)). reflexivity.
  - apply (proj2 (proj2 (Hhit Hcs))). reflexivity.
Defined.

(** C6 fails as stated for the role cache: the pair ("grp", "1:user-5") was
    never saved and has no assignment, and its lookup succeeds with the
    role of the pair ("grp:1", "user-5"), which joins to the same key. *)
Lemma ViewRole_separator_counterexample :
  let cs := [groupCacheMock.CallSaveRole "grp:1" "user-5" "admin"] in
  ("grp", "1:user-5") ≠ ("grp:1", "user-5") ∧
  RoleCacheSpec.Resolve (RoleCacheSpec.run cs) "grp" "1:user-5" = None ∧
  groupCacheMock.ViewRole (groupCacheMock.run cs) "grp" "1:user-5" = ("admin", None) ∧
  ¬ failed (groupCacheMock.ViewRole (groupCacheMock.run cs) "grp" "1:user-5").
Proof.
  intros cs. split; [discriminate|]. split; [|split].
  - vm_compute. reflexivity.
  - vm_compute. reflexivity.
  - intros Hf. apply Hf. vm_compute. reflexivity.
Qed.

(** C7, as the code has it: every mutating method returns a nil error in
    every state and for every argument (for Remove: in every range order);
    and a removal that matches nothing leaves the receiver as it was:
    Remove when no entry has the value, RemoveGroup and RemoveOrg when the
    key has no entry, RemoveRole when the joined key of the pair has no
    entry, which holds for every pair without role assignment while every
    identifier passed to SaveRole is free of the separator ':'. *)
Theorem mutations_succeed tcm ccm gcm cs order key value memberID :
  ((thingCacheMock.Save tcm key value).2 = None ∧
   (thingCacheMock.Remove order tcm value).2 = None ∧
   (thingCacheMock.SaveGroup tcm key value).2 = None ∧
   (thingCacheMock.RemoveGroup tcm key).2 = None ∧
   (profileCacheMock.SaveGroup ccm key value).2 = None ∧
   (profileCacheMock.RemoveGroup ccm key).2 = None ∧
   (groupCacheMock.SaveOrg gcm key value).2 = None ∧
   (groupCacheMock.RemoveOrg gcm key).2 = None ∧
   (groupCacheMock.SaveRole gcm key memberID value).2 = None ∧
   (groupCacheMock.RemoveRole gcm key memberID).2 = None) ∧
  (RangeOrder order →
   (∀ k, thingCacheMock.things tcm !! k ≠ Some value) →
   (thingCacheMock.Remove order tcm value).1 = tcm) ∧
  (thingCacheMock.groups tcm !! key = None →
   (thingCacheMock.RemoveGroup tcm key).1 = tcm) ∧
  (profileCacheMock.groups ccm !! key = None →
   (profileCacheMock.RemoveGroup ccm key).1 = ccm) ∧
  (groupCacheMock.orgs gcm !! key = None →
   (groupCacheMock.RemoveOrg gcm key).1 = gcm) ∧
  (groupCacheMock.roles gcm !! groupCacheMock.rKey key memberID = None →
   (groupCacheMock.RemoveRole gcm key memberID).1 = gcm) ∧
  (Forall groupCacheMock.saves_sepfree cs →
   ¬ RoleCacheSpec.assigned (RoleCacheSpec.run cs) key memberID →
   (groupCacheMock.RemoveRole (groupCacheMock.run cs) key memberID).1
   = groupCacheMock.run cs).
Proof.
  split; [done|].
  split; [|split; [|split; [|split; [|split]]]].
  - intros Ho Hno. destruct tcm as [th gr]. unfold thingCacheMock.Remove; simpl in *.
    by rewrite Remove_loop_absent.
  - intros Hk. destruct tcm as [th gr]. unfold thingCacheMock.RemoveGroup; simpl in *.
    by rewrite delete_id.
  - intros Hk. destruct ccm as [pg]. unfold profileCacheMock.RemoveGroup; simpl in *.
    by rewrite delete_id.
  - intros Hk. destruct gcm as [og rl]. unfold groupCacheMock.RemoveOrg; simpl in *.
    by rewrite delete_id.
  - apply RemoveRole_absent_noop.
  - apply RemoveRole_unassigned_noop.
Qed.

Lemma mutations_succeed_witness :
  let tcm := (thingCacheMock.Save thingCacheMock.NewThingCache "key-A" "dev-1").1 in
  let cs := [groupCacheMock.CallSaveRole "grp-9" "user-7" "editor"] in
  (thingCacheMock.Remove reverse tcm "dev-2").2 = None ∧
  (thingCacheMock.Remove reverse tcm "dev-2").1 = tcm ∧
  (groupCacheMock.RemoveRole groupCacheMock.NewGroupCache "grp-1" "user-7").1
    = groupCacheMock.NewGroupCache ∧
  (groupCacheMock.RemoveRole (groupCacheMock.run cs) "grp-1" "user-7").1
    = groupCacheMock.run cs.
Proof.
  intros tcm cs.
  destruct (mutations_succeed tcm profileCacheMock.NewProfileCache
              groupCacheMock.NewGroupCache cs reverse "grp-1" "dev-2" "user-7")
    as ((_ & Hnil & _) & Hrm & _ & _ & _ & Hrole & Hpair).
  split; [exact Hnil|]. split; [|split].
  - apply Hrm.
    + exact reverse_Permutation.
    + intros k. destruct (decide (k = "key-A")) as [->|Hk].
      * vm_compute. discriminate.
      * unfold tcm. simpl. rewrite lookup_insert_ne, lookup_empty; [discriminate|done].
  - apply Hrole. reflexivity.
  - apply Hpair.
    + repeat constructor; reflexivity.
    + intros [r Hr]. vm_compute in Hr. discriminate.
Defined.

(** C7 fails as stated for the role cache: the pair ("org", "a:bob") has no
    role assignment, and RemoveRole of it, though it returns nil, deletes
    the role of ("org:a", "bob") and so changes the cache. *)
Lemma RemoveRole_not_noop_counterexample :
  let cs := [groupCacheMock.CallSaveRole "org:a" "bob" "viewer"] in
  let gcm := groupCacheMock.run cs in
  ¬ RoleCacheSpec.assigned (RoleCacheSpec.run cs) "org" "a:bob" ∧
  (groupCacheMock.RemoveRole gcm "org" "a:bob").2 = None ∧
  groupCacheMock.roles gcm = {[ "org:a:bob" := "viewer" ]} ∧
  groupCacheMock.roles (groupCacheMock.RemoveRole gcm "org" "a:bob").1 = ∅ ∧
  (groupCacheMock.RemoveRole gcm "org" "a:bob").1 ≠ gcm.
Proof.
  intros cs gcm. split; [|split; [|split; [|split]]].
  - intros [r Hr]. vm_compute in Hr. discriminate.
  - reflexivity.
  - unfold gcm, cs, groupCacheMock.run. simpl. by rewrite insert_empty.
  - unfold gcm, cs, groupCacheMock.run. simpl.
    change (groupCacheMock.rKey "org" "a:bob") with (groupCacheMock.rKey "org:a" "bob").
    by rewrite delete_insert_eq, delete_empty.
  - intros Heq.
    assert (groupCacheMock.ViewRole (groupCacheMock.RemoveRole gcm "org" "a:bob").1
              "org:a" "bob" = groupCacheMock.ViewRole gcm "org:a" "bob") as Hv
      by (by rewrite Heq).
    vm_compute in Hv. discriminate.
Qed.

(** C8: RemoveGroup of the thing cache, RemoveGroup of the profile cache
    and RemoveOrg delete the entry of the given key (its lookup then fails
    with ErrNotFound) and leave the lookup of every other key as it was;
    RemoveGroup of the thing cache also leaves the credential map alone. *)
Theorem Remove_by_key_frame tcm ccm gcm childID childID' :
  childID' ≠ childID →
  thingCacheMock.ViewGroup (thingCacheMock.RemoveGroup tcm childID).1 childID'
    = thingCacheMock.ViewGroup tcm childID' ∧
  profileCacheMock.ViewGroup (profileCacheMock.RemoveGroup ccm childID).1 childID'
    = profileCacheMock.ViewGroup ccm childID' ∧
  groupCacheMock.ViewOrg (groupCacheMock.RemoveOrg gcm childID).1 childID'
    = groupCacheMock.ViewOrg gcm childID' ∧
  thingCacheMock.ViewGroup (thingCacheMock.RemoveGroup tcm childID).1 childID
    = ("", Some ErrNotFound) ∧
  profileCacheMock.ViewGroup (profileCacheMock.RemoveGroup ccm childID).1 childID
    = ("", Some ErrNotFound) ∧
  groupCacheMock.ViewOrg (groupCacheMock.RemoveOrg gcm childID).1 childID
    = ("", Some ErrNotFound) ∧
  thingCacheMock.things (thingCacheMock.RemoveGroup tcm childID).1
    = thingCacheMock.things tcm ∧
  groupCacheMock.roles (groupCacheMock.RemoveOrg gcm childID).1
    = groupCacheMock.roles gcm.
Proof.
  intros Hne.
  unfold thingCacheMock.ViewGroup, profileCacheMock.ViewGroup, groupCacheMock.ViewOrg;
    simpl.
  rewrite !lookup_delete_eq, !lookup_delete_ne by done. done.
Qed.

Lemma Remove_by_key_frame_witness :
  let tcm := (thingCacheMock.SaveGroup
                (thingCacheMock.SaveGroup thingCacheMock.NewThingCache "dev-1" "grp-9").1
                "dev-2" "grp-9").1 in
  thingCacheMock.ViewGroup (thingCacheMock.RemoveGroup tcm "dev-1").1 "dev-2"
    = ("grp-9", None) ∧
  thingCacheMock.ViewGroup (thingCacheMock.RemoveGroup tcm "dev-1").1 "dev-1"
    = ("", Some ErrNotFound).
Proof.
  intros tcm.
  destruct (Remove_by_key_frame tcm profileCacheMock.NewProfileCache
              groupCacheMock.NewGroupCache "dev-1" "dev-2")
    as (Hother & _ & _ & Hsame & _).
  - discriminate.
  - split; [rewrite Hother; reflexivity|exact Hsame].
Defined.

(** C1: what Remove does where the claim expects both credentials gone.
    After Save(k1, id); Save(k2, id) with k1 and k2 distinct, Remove(id)
    deletes the entry of exactly one key holding id, whatever the range
    order, so at least one of ID(k1), ID(k2) still returns id. *)
Theorem Remove_deletes_one_entry tcm k1 k2 id order :
  k1 ≠ k2 →
  RangeOrder order →
  (∃ k,
     thingCacheMock.things
       (thingCacheMock.Save (thingCacheMock.Save tcm k1 id).1 k2 id).1 !! k = Some id ∧
     thingCacheMock.things
       (thingCacheMock.Remove order
          (thingCacheMock.Save (thingCacheMock.Save tcm k1 id).1 k2 id).1 id).1
     = delete k
         (thingCacheMock.things
            (thingCacheMock.Save (thingCacheMock.Save tcm k1 id).1 k2 id).1)) ∧
  (thingCacheMock.ID
     (thingCacheMock.Remove order
        (thingCacheMock.Save (thingCacheMock.Save tcm k1 id).1 k2 id).1 id).1 k1
   = (id, None) ∨
   thingCacheMock.ID
     (thingCacheMock.Remove order
        (thingCacheMock.Save (thingCacheMock.Save tcm k1 id).1 k2 id).1 id).1 k2
   = (id, None)).
Proof.
  intros Hne Ho. unfold thingCacheMock.ID. simpl in *.
  set (m := <[k2:=id]> (<[k1:=id]> (thingCacheMock.things tcm))) in *.
  assert (m !! k1 = Some id) as H1.
  { unfold m. by rewrite lookup_insert_ne, lookup_insert_eq. }
  assert (m !! k2 = Some id) as H2.
  { unfold m. by rewrite lookup_insert_eq. }
  destruct (Remove_loop_cases (range order m) m id) as [[Hno _]|[k [Hin Heq]]].
  - exfalso. apply (Hno k1 id); [|done]. by apply (RangeOrder_elem m order).
  - rewrite Heq. split.
    + exists k. split; [|done]. by apply (RangeOrder_elem m order).
    + destruct (decide (k = k1)) as [->|Hk].
      * right. by rewrite lookup_delete_ne, H2.
      * left. by rewrite lookup_delete_ne, H1.
Qed.

Lemma Remove_deletes_one_entry_witness :
  let saved := (thingCacheMock.Save
                  (thingCacheMock.Save thingCacheMock.NewThingCache "key-A" "dev-1").1
                  "key-B" "dev-1").1 in
  thingCacheMock.ID (thingCacheMock.Remove reverse saved "dev-1").1 "key-A"
    = ("dev-1", None) ∨
  thingCacheMock.ID (thingCacheMock.Remove reverse saved "dev-1").1 "key-B"
    = ("dev-1", None).
Proof.
  intros saved.
  refine (proj2 (Remove_deletes_one_entry thingCacheMock.NewThingCache
                   "key-A" "key-B" "dev-1" reverse _ _)).
  - discriminate.
  - exact reverse_Permutation.
Defined.

(** The same input evaluated: in either order of the two entries one
    credential is deleted and the other still resolves to the device. *)
Example Remove_two_credentials :
  let saved := (thingCacheMock.Save
                  (thingCacheMock.Save thingCacheMock.NewThingCache "key-A" "dev-1").1
                  "key-B" "dev-1").1 in
  range (λ l, l) (thingCacheMock.things saved)
    = [("key-A", "dev-1"); ("key-B", "dev-1")] ∧
  thingCacheMock.ID (thingCacheMock.Remove (λ l, l) saved "dev-1").1 "key-A"
    = ("", Some ErrNotFound) ∧
  thingCacheMock.ID (thingCacheMock.Remove (λ l, l) saved "dev-1").1 "key-B"
    = ("dev-1", None) ∧
  range reverse (thingCacheMock.things saved)
    = [("key-B", "dev-1"); ("key-A", "dev-1")] ∧
  thingCacheMock.ID (thingCacheMock.Remove reverse saved "dev-1").1 "key-A"
    = ("dev-1", None) ∧
  thingCacheMock.ID (thingCacheMock.Remove reverse saved "dev-1").1 "key-B"
    = ("", Some ErrNotFound).
Proof. vm_compute. done. Qed.

(** While only separator-free identifiers are saved, a key of the roles
    map contributes the group [g] to the query for [memberID] exactly when
    it is the key of the pair [(g, memberID)]. *)
Lemma contributes_key cs k memberID g :
  Forall groupCacheMock.saves_sepfree cs →
  is_Some (groupCacheMock.roles (groupCacheMock.run cs) !! k) →
  groupCacheMock.contributes memberID k = Some g ↔ k = groupCacheMock.rKey g memberID.
Proof.
  intros Hcs Hk.
  destruct (roles_key_sepfree cs k Hcs Hk) as (g1 & m1 & Hg1 & Hm1 & ->).
  rewrite contributes_rKey by done. split.
  - case_decide as Hm; [|done]. intros [= ->]. by subst.
  - intros Heq. destruct (rKey_inj_single g1 m1 g memberID) as [-> ->]; [|done|].
    + rewrite count_sep_rKey. unfold sepfree in *. lia.
    + by rewrite decide_True.
Qed.

(** The groups contributed by the keys of the roles map are then the
    groups in which the member has an assignment. *)
Lemma contributions_assigned cs order memberID g :
  Forall groupCacheMock.saves_sepfree cs →
  RangeOrder order →
  g ∈ omap (groupCacheMock.contributes memberID)
        (range order (groupCacheMock.roles (groupCacheMock.run cs))).*1
  ↔ RoleCacheSpec.assigned (RoleCacheSpec.run cs) g memberID.
Proof.
  intros Hcs Ho. unfold RoleCacheSpec.assigned, RoleCacheSpec.Resolve.
  rewrite <- (roles_refine cs g memberID Hcs), list_elem_of_omap. split.
  - intros (k & Hk & Hc). apply (RangeOrder_key _ order k Ho) in Hk.
    apply (contributes_key cs k memberID g Hcs Hk) in Hc. by subst.
  - intros Hk. exists (groupCacheMock.rKey g memberID). split.
    + by apply (RangeOrder_key _ order _ Ho).
    + by apply (contributes_key cs _ memberID g Hcs Hk).
Qed.

(** C2, as the code has it: when every identifier passed to SaveRole is
    free of the separator ':', GroupMemberships(memberID) returns, in every
    range order, a duplicate-free list holding exactly the groups in which
    memberID has a role assignment (whatever the role, and whatever other
    members are assigned). *)
Theorem GroupMemberships_exact_sepfree cs order memberID :
  Forall groupCacheMock.saves_sepfree cs →
  RangeOrder order →
  ∃ groups,
    groupCacheMock.GroupMemberships order (groupCacheMock.run cs) memberID
      = Done (groups, None) ∧
    NoDup groups ∧
    ∀ g, g ∈ groups ↔ RoleCacheSpec.assigned (RoleCacheSpec.run cs) g memberID.
Proof.
  intros Hcs Ho.
  exists (omap (groupCacheMock.contributes memberID)
            (range order (groupCacheMock.roles (groupCacheMock.run cs))).*1).
  split; [by apply GroupMemberships_returns|]. split.
  - apply NoDup_omap_inj; [|by eapply RangeOrder_NoDup].
    intros x y g Hx Hy Hcx Hcy.
    apply (RangeOrder_key _ order x Ho) in Hx.
    apply (RangeOrder_key _ order y Ho) in Hy.
    apply (contributes_key cs x memberID g Hcs Hx) in Hcx.
    apply (contributes_key cs y memberID g Hcs Hy) in Hcy.
    congruence.
  - intros g. by apply contributions_assigned.
Qed.

Lemma GroupMemberships_exact_sepfree_witness :
  let cs := [groupCacheMock.CallSaveRole "grp-1" "user-5" "viewer";
             groupCacheMock.CallSaveRole "grp-2" "user-5" "admin";
             groupCacheMock.CallSaveRole "grp-3" "user-6" "admin"] in
  Forall groupCacheMock.saves_sepfree cs ∧
  ∃ groups,
    groupCacheMock.GroupMemberships reverse (groupCacheMock.run cs) "user-5"
      = Done (groups, None) ∧
    NoDup groups ∧
    ∀ g, g ∈ groups ↔ RoleCacheSpec.assigned (RoleCacheSpec.run cs) g "user-5".
Proof.
  intros cs.
  assert (Forall groupCacheMock.saves_sepfree cs) as Hcs.
  { repeat constructor; reflexivity. }
  split; [exact Hcs|].
  apply (GroupMemberships_exact_sepfree cs reverse "user-5" Hcs).
  exact reverse_Permutation.
Defined.

(** The scenario of the specification, evaluated. *)
Example GroupMemberships_two_groups :
  let gcm := groupCacheMock.run
               [groupCacheMock.CallSaveRole "grp-1" "user-5" "viewer";
                groupCacheMock.CallSaveRole "grp-2" "user-5" "admin"] in
  groupCacheMock.GroupMemberships (λ l, l) gcm "user-5"
    = Done (["grp-1"; "grp-2"], None) ∧
  groupCacheMock.GroupMemberships reverse gcm "user-5"
    = Done (["grp-2"; "grp-1"], None).
Proof. vm_compute. done. Qed.

(** C2 fails as stated: with a member identifier holding the separator, the
    query for "user" returns a group although "user" has no assignment,
    and the query for "user:5", who has one, returns nothing. *)
Lemma GroupMemberships_separator_counterexample :
  let cs := [groupCacheMock.CallSaveRole "grp-1" "user:5" "viewer"] in
  let order := λ l : list (string * string), l in
  RangeOrder order ∧
  groupCacheMock.GroupMemberships order (groupCacheMock.run cs) "user"
    = Done (["grp-1"], None) ∧
  (∀ g, ¬ RoleCacheSpec.assigned (RoleCacheSpec.run cs) g "user") ∧
  (∀ g, groupCacheMock.ViewRole (groupCacheMock.run cs) g "user"
        = ("", Some ErrNotFound)) ∧
  groupCacheMock.GroupMemberships order (groupCacheMock.run cs) "user:5"
    = Done ([], None) ∧
  RoleCacheSpec.assigned (RoleCacheSpec.run cs) "grp-1" "user:5".
Proof.
  intros cs order. split; [|split; [|split; [|split; [|split]]]].
  - intros l. reflexivity.
  - vm_compute. reflexivity.
  - intros g [r Hr].
    unfold RoleCacheSpec.Resolve, cs, RoleCacheSpec.run in Hr.
    cbn [foldl RoleCacheSpec.step] in Hr. unfold RoleCacheSpec.Save in Hr.
    rewrite lookup_insert_ne, lookup_empty in Hr; [done|].
    intros [= _]; done.
  - intros g. unfold groupCacheMock.ViewRole, cs, groupCacheMock.run.
    cbn [foldl groupCacheMock.step groupCacheMock.SaveRole groupCacheMock.roles fst].
    rewrite lookup_insert_ne; [done|].
    change (groupCacheMock.rKey "grp-1" "user:5")
      with (groupCacheMock.rKey "grp-1:user" "5").
    intros Heq. apply rKey_inj_member in Heq as [_ [=]]; reflexivity.
  - vm_compute. reflexivity.
  - exists "viewer". reflexivity.
Qed.

(** With two such members in one group the returned list repeats the
    group, in either range order. *)
Example GroupMemberships_duplicates :
  let gcm := groupCacheMock.run
               [groupCacheMock.CallSaveRole "grp-1" "user:5" "viewer";
                groupCacheMock.CallSaveRole "grp-1" "user:6" "admin"] in
  groupCacheMock.GroupMemberships (λ l, l) gcm "user"
    = Done (["grp-1"; "grp-1"], None) ∧
  groupCacheMock.GroupMemberships reverse gcm "user"
    = Done (["grp-1"; "grp-1"], None).
Proof. vm_compute. done. Qed.

(** C3, as the code has it: RemoveRole(g, m) deletes the entry stored under
    the joined key of (g, m), for all identifiers, so ViewRole(g, m) then
    fails with ErrNotFound; it changes nothing when no entry is stored
    under the joined key (so, while every identifier passed to SaveRole is
    free of the separator ':', when the pair has no assignment), and it
    never touches the org map; it leaves ViewRole of every other pair
    (g', m') as it was when the two group identifiers, or the two member
    identifiers, are free of the separator ':'. *)
Theorem RemoveRole_frame_sepfree gcm cs g m g' m' :
  groupCacheMock.roles (groupCacheMock.RemoveRole gcm g m).1
    = delete (groupCacheMock.rKey g m) (groupCacheMock.roles gcm) ∧
  groupCacheMock.ViewRole (groupCacheMock.RemoveRole gcm g m).1 g m
    = ("", Some ErrNotFound) ∧
  (failed (groupCacheMock.ViewRole gcm g m) →
   (groupCacheMock.RemoveRole gcm g m).1 = gcm) ∧
  (Forall groupCacheMock.saves_sepfree cs →
   ¬ RoleCacheSpec.assigned (RoleCacheSpec.run cs) g m →
   (groupCacheMock.RemoveRole (groupCacheMock.run cs) g m).1 = groupCacheMock.run cs) ∧
  groupCacheMock.orgs (groupCacheMock.RemoveRole gcm g m).1 = groupCacheMock.orgs gcm ∧
  ((g', m') ≠ (g, m) →
   (sepfree g ∧ sepfree g') ∨ (sepfree m ∧ sepfree m') →
   groupCacheMock.ViewRole (groupCacheMock.RemoveRole gcm g m).1 g' m'
   = groupCacheMock.ViewRole gcm g' m').
Proof.
  split; [done|]. split; [|split; [|split; [|split; [done|]]]].
  - unfold groupCacheMock.ViewRole; simpl. by rewrite lookup_delete_eq.
  - intros Hf. apply RemoveRole_absent_noop.
    unfold failed, groupCacheMock.ViewRole in Hf.
    destruct (groupCacheMock.roles gcm !! groupCacheMock.rKey g m) as [r|] eqn:Hr;
      [by destruct Hf|done].
  - apply RemoveRole_unassigned_noop.
  - intros Hne Hsep.
    assert (groupCacheMock.rKey g m ≠ groupCacheMock.rKey g' m') as Hk.
    { intros Heq. apply Hne.
      destruct Hsep as [[Hg Hg']|[Hm Hm']].
      - by destruct (rKey_inj_group g m g' m' Hg Hg' Heq) as [-> ->].
      - by destruct (rKey_inj_member g m g' m' Hm Hm' Heq) as [-> ->]. }
    unfold groupCacheMock.ViewRole; simpl.
    by rewrite lookup_delete_ne.
Qed.

Lemma RemoveRole_frame_sepfree_witness :
  let cs := [groupCacheMock.CallSaveRole "grp-1" "user-5" "viewer";
             groupCacheMock.CallSaveRole "grp-2" "user-5" "admin"] in
  let gcm := groupCacheMock.run cs in
  groupCacheMock.ViewRole (groupCacheMock.RemoveRole gcm "grp-1" "user-5").1
    "grp-2" "user-5" = ("admin", None) ∧
  groupCacheMock.ViewRole (groupCacheMock.RemoveRole gcm "grp-1" "user-5").1
    "grp-1" "user-5" = ("", Some ErrNotFound) ∧
  (groupCacheMock.RemoveRole gcm "a:b" "c:d").1 = gcm ∧
  (groupCacheMock.RemoveRole gcm "grp-3" "user-5").1 = gcm.
Proof.
  intros cs gcm.
  destruct (RemoveRole_frame_sepfree gcm cs "grp-1" "user-5" "grp-2" "user-5")
    as (_ & Hsame & _ & _ & _ & Hother).
  destruct (RemoveRole_frame_sepfree gcm cs "a:b" "c:d" "grp-2" "user-5")
    as (_ & _ & Hnoop & _).
  destruct (RemoveRole_frame_sepfree gcm cs "grp-3" "user-5" "grp-2" "user-5")
    as (_ & _ & _ & Hpair & _).
  split; [|split; [exact Hsame|split]].
  - rewrite Hother; [reflexivity|discriminate|left; split; reflexivity].
  - apply Hnoop. unfold failed. vm_compute. discriminate.
  - apply Hpair.
    + repeat constructor; reflexivity.
    + intros [r Hr]. vm_compute in Hr. discriminate.
Defined.

(** C3 fails as stated: the pairs ("grp:1", "user-5") and ("grp", "1:user-5")
    differ but join to the same key, so removing the second, which was
    never assigned, deletes the role of the first. *)
Lemma RemoveRole_separator_counterexample :
  let cs := [groupCacheMock.CallSaveRole "grp:1" "user-5" "admin"] in
  let gcm := groupCacheMock.run cs in
  ("grp:1", "user-5") ≠ ("grp", "1:user-5") ∧
  ¬ RoleCacheSpec.assigned (RoleCacheSpec.run cs) "grp" "1:user-5" ∧
  groupCacheMock.ViewRole gcm "grp:1" "user-5" = ("admin", None) ∧
  groupCacheMock.ViewRole (groupCacheMock.RemoveRole gcm "grp" "1:user-5").1
    "grp:1" "user-5" = ("", Some ErrNotFound) ∧
  (groupCacheMock.RemoveRole gcm "grp" "1:user-5").1 ≠ gcm.
Proof.
  intros cs gcm. split; [discriminate|]. split; [|split; [|split]].
  - intros [r Hr]. vm_compute in Hr. discriminate.
  - vm_compute. reflexivity.
  - vm_compute. reflexivity.
  - intros Heq.
    assert (groupCacheMock.ViewRole (groupCacheMock.RemoveRole gcm "grp" "1:user-5").1
              "grp:1" "user-5" = groupCacheMock.ViewRole gcm "grp:1" "user-5") as Hv
      by (by rewrite Heq).
    vm_compute in Hv. discriminate.
Qed.

(** C9: in every state reached from a fresh group cache, every key of the
    roles map is the join of a group and a member identifier, holds at
    least one separator, and splits into at least two parts, so that
    parts[0] and parts[1] exist; GroupMemberships therefore never panics,
    whatever the member and the range order. *)
Theorem roles_keys_have_separator cs k :
  is_Some (groupCacheMock.roles (groupCacheMock.run cs) !! k) →
  (∃ g m, k = groupCacheMock.rKey g m) ∧
  (1 ≤ count_sep k)%nat ∧
  (2 ≤ length (strings_Split k sep))%nat ∧
  is_Some (strings_Split k sep !! 0%nat) ∧
  is_Some (strings_Split k sep !! 1%nat) ∧
  (∀ order memberID,
     RangeOrder order →
     groupCacheMock.GroupMemberships order (groupCacheMock.run cs) memberID ≠ Panic).
Proof.
  intros Hk. destruct (roles_key_joined cs k Hk) as (g & m & ->).
  assert (2 ≤ length (strings_Split (groupCacheMock.rKey g m) sep))%nat as Hlen.
  { rewrite strings_Split_length, count_sep_rKey. lia. }
  split; [by exists g, m|]. split; [rewrite count_sep_rKey; lia|].
  split; [done|]. split; [|split].
  - apply lookup_lt_is_Some. lia.
  - apply lookup_lt_is_Some. lia.
  - intros order memberID Ho. by rewrite GroupMemberships_returns.
Qed.

Lemma roles_keys_have_separator_witness :
  let cs := [groupCacheMock.CallSaveRole "grp-9" "user-7" "editor";
             groupCacheMock.CallRemoveRole "grp-1" "user-7"] in
  is_Some (groupCacheMock.roles (groupCacheMock.run cs) !! "grp-9:user-7") ∧
  (2 ≤ length (strings_Split "grp-9:user-7" sep))%nat.
Proof.
  intros cs.
  assert (is_Some (groupCacheMock.roles (groupCacheMock.run cs) !! "grp-9:user-7")) as Hk.
  { exists "editor". vm_compute. reflexivity. }
  split; [exact Hk|].
  exact (proj1 (proj2 (proj2 (roles_keys_have_separator cs "grp-9:user-7" Hk)))).
Defined.

(** An unreachable roles map shows what the invariant is for: on a key
    without separator the loop indexes past the single part. *)
Example GroupMemberships_panics_without_separator :
  groupCacheMock.GroupMemberships (λ l, l)
    {| groupCacheMock.orgs := ∅; groupCacheMock.roles := {["grp-9" := "editor"]} |}
    "user-7" = Panic.
Proof. vm_compute. reflexivity. Qed.

(** C10, as the code has it: in every state reached from a fresh group
    cache GroupMemberships returns a list with a nil error, for every
    member and range order; and it returns the empty list for a member
    without role assignment when every identifier passed to SaveRole is
    free of the separator ':'. *)
Theorem GroupMemberships_never_fails cs order memberID :
  RangeOrder order →
  ∃ groups,
    groupCacheMock.GroupMemberships order (groupCacheMock.run cs) memberID
      = Done (groups, None) ∧
    (Forall groupCacheMock.saves_sepfree cs →
     (∀ g, ¬ RoleCacheSpec.assigned (RoleCacheSpec.run cs) g memberID) →
     groups = []).
Proof.
  intros Ho.
  exists (omap (groupCacheMock.contributes memberID)
            (range order (groupCacheMock.roles (groupCacheMock.run cs))).*1).
  split; [by apply GroupMemberships_returns|].
  intros Hcs Hno.
  destruct (omap (groupCacheMock.contributes memberID)
              (range order (groupCacheMock.roles (groupCacheMock.run cs))).*1)
    as [|g gs] eqn:Hg; [done|].
  destruct (Hno g). apply (contributions_assigned cs order memberID g Hcs Ho).
  rewrite Hg. by left.
Qed.

Lemma GroupMemberships_never_fails_witness :
  let cs := [groupCacheMock.CallSaveRole "grp-9" "user-7" "editor"] in
  ∃ groups,
    groupCacheMock.GroupMemberships reverse (groupCacheMock.run cs) "user-8"
      = Done (groups, None) ∧
    groups = [].
Proof.
  intros cs.
  destruct (GroupMemberships_never_fails cs reverse "user-8") as (groups & Hret & Hnil).
  - exact reverse_Permutation.
  - exists groups. split; [exact Hret|]. apply Hnil.
    + repeat constructor; reflexivity.
    + intros g [r Hr]. unfold RoleCacheSpec.Resolve, cs, RoleCacheSpec.run in Hr.
      cbn [foldl RoleCacheSpec.step] in Hr. unfold RoleCacheSpec.Save in Hr.
      rewrite lookup_insert_ne, lookup_empty in Hr; [discriminate|].
      intros [= _]; discriminate.
Defined.

(** C10 fails as stated: "user" has no role assignment in any group, by
    the pair-keyed map and by ViewRole alike, and GroupMemberships("user")
    returns the group of the member "user:7". *)
Lemma GroupMemberships_nonempty_counterexample :
  let cs := [groupCacheMock.CallSaveRole "grp-9" "user:7" "editor"] in
  let order := λ l : list (string * string), l in
  RangeOrder order ∧
  (∀ g, ¬ RoleCacheSpec.assigned (RoleCacheSpec.run cs) g "user") ∧
  (∀ g, groupCacheMock.ViewRole (groupCacheMock.run cs) g "user"
        = ("", Some ErrNotFound)) ∧
  groupCacheMock.GroupMemberships order (groupCacheMock.run cs) "user"
    = Done (["grp-9"], None).
Proof.
  intros cs order. split; [|split; [|split]].
  - intros l. reflexivity.
  - intros g [r Hr].
    unfold RoleCacheSpec.Resolve, cs, RoleCacheSpec.run in Hr.
    cbn [foldl RoleCacheSpec.step] in Hr. unfold RoleCacheSpec.Save in Hr.
    rewrite lookup_insert_ne, lookup_empty in Hr; [done|].
    intros [= _]; done.
  - intros g. unfold groupCacheMock.ViewRole, cs, groupCacheMock.run.
    cbn [foldl groupCacheMock.step groupCacheMock.SaveRole groupCacheMock.roles fst].
    rewrite lookup_insert_ne; [done|].
    change (groupCacheMock.rKey "grp-9" "user:7")
      with (groupCacheMock.rKey "grp-9:user" "7").
    intros Heq. apply rKey_inj_member in Heq as [_ [=]]; reflexivity.
  - vm_compute. reflexivity.
Qed.

(** ** The resolution chain of the specification, run on the model *)

Example scenario_resolution_chain :
  let tcm := (thingCacheMock.SaveGroup
                (thingCacheMock.Save thingCacheMock.NewThingCache "key-A" "dev-1").1
                "dev-1" "grp-9").1 in
  let gcm := groupCacheMock.run
               [groupCacheMock.CallSaveOrg "grp-9" "org-3";
                groupCacheMock.CallSaveRole "grp-9" "user-7" "editor"] in
  thingCacheMock.ID tcm "key-A" = ("dev-1", None) ∧
  thingCacheMock.ViewGroup tcm "dev-1" = ("grp-9", None) ∧
  groupCacheMock.ViewOrg gcm "grp-9" = ("org-3", None) ∧
  groupCacheMock.ViewRole gcm "grp-9" "user-7" = ("editor", None) ∧
  groupCacheMock.GroupMemberships reverse gcm "user-7" = Done (["grp-9"], None) ∧
  thingCacheMock.ID (thingCacheMock.Remove reverse tcm "dev-1").1 "key-A"
    = ("", Some ErrNotFound).
Proof. vm_compute. done. Qed.

Example scenario_split :
  strings_Split "grp-9:user-7" sep = ["grp-9"; "user-7"] ∧
  strings_Split "a:b:c" sep = ["a"; "b"; "c"] ∧
  strings_Split "abc" sep = ["abc"] ∧
  strings_Split "" sep = [""] ∧
  strings_Split ":" sep = [""; ""].
Proof. vm_compute. done. Qed.

(** * Further properties of the code *)

(** ** Splitting and joining *)

Lemma strings_Split_parts_sepfree (s : string) :
  Forall sepfree (strings_Split s sep).
Proof.
  induction s as [|a s IH]; simpl.
  - by constructor.
  - case_decide as Ha.
    + by constructor.
    + pose proof (strings_Split_length s) as Hlen.
      destruct (strings_Split s sep) as [|p ps]; [simpl in Hlen; lia|].
      apply Forall_cons in IH as [Hp Hps]. constructor; [|done].
      unfold sepfree in *. simpl. by rewrite decide_False.
Qed.

Lemma join_sep_cons (p q : string) (rest : list string) :
  join_sep (p :: q :: rest) = groupCacheMock.rKey p (join_sep (q :: rest)).
Proof. done. Qed.

Lemma join_sep_Split (s : string) : join_sep (strings_Split s sep) = s.
Proof.
  induction s as [|a s IH]; [done|].
  pose proof (strings_Split_length s) as Hlen.
  cbn [strings_Split]. destruct (strings_Split s sep) as [|p ps]; [simpl in Hlen; lia|].
  case_decide as Ha.
  - rewrite join_sep_cons, IH. by subst a.
  - destruct ps as [|q ps].
    + simpl in *. by subst.
    + rewrite join_sep_cons in *. unfold groupCacheMock.rKey in *. by rewrite <- IH.
Qed.

Lemma strings_Split_join (parts : list string) :
  parts ≠ [] → Forall sepfree parts → strings_Split (join_sep parts) sep = parts.
Proof.
  induction parts as [|p parts IH]; intros Hne Hall; [by destruct Hne|].
  apply Forall_cons in Hall as [Hp Hrest].
  destruct parts as [|q rest].
  - by apply strings_Split_sepfree.
  - rewrite join_sep_cons, strings_Split_rKey by done.
    by rewrite IH.
Qed.

(** X1: strings.Split(s, ":") returns count+1 parts, none of which holds
    the separator, and joining them with ':' gives s back; it is the only
    non-empty list of separator-free parts that joins to s. *)
Theorem strings_Split_round_trip (s : string) (parts : list string) :
  length (strings_Split s sep) = S (count_sep s) ∧
  Forall sepfree (strings_Split s sep) ∧
  join_sep (strings_Split s sep) = s ∧
  (parts ≠ [] → Forall sepfree parts → join_sep parts = s →
   strings_Split s sep = parts).
Proof.
  split; [apply strings_Split_length|].
  split; [apply strings_Split_parts_sepfree|].
  split; [apply join_sep_Split|].
  intros Hne Hall <-. by apply strings_Split_join.
Qed.

Lemma strings_Split_round_trip_witness :
  strings_Split "grp-9:user-7" sep = ["grp-9"; "user-7"].
Proof.
  apply (strings_Split_round_trip "grp-9:user-7" ["grp-9"; "user-7"]).
  - discriminate.
  - repeat constructor; reflexivity.
  - reflexivity.
Defined.

(** X2: the composite key decodes to its pair: for a group and a member
    identifier without separator, splitting rKey(g, m) gives exactly
    [g; m], so parts[0] and parts[1] of GroupMemberships are g and m; and
    two such pairs with the same key are the same pair. *)
Theorem rKey_Split_round_trip (g m g' m' : string) :
  sepfree g → sepfree m →
  strings_Split (groupCacheMock.rKey g m) sep = [g; m] ∧
  groupCacheMock.contributes m (groupCacheMock.rKey g m) = Some g ∧
  (groupCacheMock.rKey g' m' = groupCacheMock.rKey g m → g' = g ∧ m' = m).
Proof.
  intros Hg Hm. split; [|split].
  - rewrite strings_Split_rKey, strings_Split_sepfree; done.
  - rewrite contributes_rKey by done. by rewrite decide_True.
  - intros Heq. symmetry in Heq.
    destruct (rKey_inj_single g m g' m') as [-> ->]; [|done|done].
    rewrite count_sep_rKey. unfold sepfree in *. lia.
Qed.

Lemma rKey_Split_round_trip_witness :
  strings_Split (groupCacheMock.rKey "grp-9" "user-7") sep = ["grp-9"; "user-7"].
Proof.
  apply (rKey_Split_round_trip "grp-9" "user-7" "grp-9" "user-7"); reflexivity.
Defined.

(** ** thingCacheMock.Remove in general *)

Lemma Remove_things_cases order tcm id :
  RangeOrder order →
  ((∀ k, thingCacheMock.things tcm !! k ≠ Some id) ∧
   thingCacheMock.things (thingCacheMock.Remove order tcm id).1
   = thingCacheMock.things tcm) ∨
  (∃ k, thingCacheMock.things tcm !! k = Some id ∧
        thingCacheMock.things (thingCacheMock.Remove order tcm id).1
        = delete k (thingCacheMock.things tcm)).
Proof.
  intros Ho. simpl.
  destruct (Remove_loop_cases (range order (thingCacheMock.things tcm))
              (thingCacheMock.things tcm) id) as [[Hno Heq]|[k [Hin Heq]]].
  - left. split; [|done]. intros k Hk.
    apply (RangeOrder_elem _ order k id Ho) in Hk. by apply (Hno k id).
  - right. exists k. split; [|done]. by apply (RangeOrder_elem _ order k id Ho).
Qed.

(** X3: Save, SaveGroup (both caches) and SaveOrg leave the lookup of every
    other key as it was; SaveRole leaves ViewRole of every other pair as
    it was when the two group identifiers, or the two member identifiers,
    are free of the separator. *)
Theorem Save_frame tcm ccm gcm key key' value g m g' m' role :
  key' ≠ key →
  (g', m') ≠ (g, m) →
  (sepfree g ∧ sepfree g') ∨ (sepfree m ∧ sepfree m') →
  thingCacheMock.ID (thingCacheMock.Save tcm key value).1 key'
    = thingCacheMock.ID tcm key' ∧
  thingCacheMock.ViewGroup (thingCacheMock.SaveGroup tcm key value).1 key'
    = thingCacheMock.ViewGroup tcm key' ∧
  profileCacheMock.ViewGroup (profileCacheMock.SaveGroup ccm key value).1 key'
    = profileCacheMock.ViewGroup ccm key' ∧
  groupCacheMock.ViewOrg (groupCacheMock.SaveOrg gcm key value).1 key'
    = groupCacheMock.ViewOrg gcm key' ∧
  groupCacheMock.ViewRole (groupCacheMock.SaveRole gcm g m role).1 g' m'
    = groupCacheMock.ViewRole gcm g' m'.
Proof.
  intros Hkey Hne Hsep.
  assert (groupCacheMock.rKey g m ≠ groupCacheMock.rKey g' m') as Hk.
  { intros Heq. apply Hne.
    destruct Hsep as [[Hg Hg']|[Hm Hm']].
    - by destruct (rKey_inj_group g m g' m' Hg Hg' Heq) as [-> ->].
    - by destruct (rKey_inj_member g m g' m' Hm Hm' Heq) as [-> ->]. }
  unfold thingCacheMock.ID, thingCacheMock.ViewGroup, profileCacheMock.ViewGroup,
    groupCacheMock.ViewOrg, groupCacheMock.ViewRole; simpl.
  rewrite !lookup_insert_ne by done. done.
Qed.

Lemma Save_frame_witness :
  let tcm := (thingCacheMock.Save thingCacheMock.NewThingCache "key-A" "dev-1").1 in
  let gcm := (groupCacheMock.SaveRole groupCacheMock.NewGroupCache
                "grp-1" "user-5" "viewer").1 in
  thingCacheMock.ID (thingCacheMock.Save tcm "key-B" "dev-2").1 "key-A"
    = ("dev-1", None) ∧
  groupCacheMock.ViewRole (groupCacheMock.SaveRole gcm "grp-2" "user-5" "admin").1
    "grp-1" "user-5" = ("viewer", None).
Proof.
  intros tcm gcm.
  destruct (Save_frame tcm profileCacheMock.NewProfileCache gcm
              "key-B" "key-A" "dev-2" "grp-2" "user-5" "grp-1" "user-5" "admin")
    as (Hid & _ & _ & _ & Hrole).
  - discriminate.
  - discriminate.
  - left. split; reflexivity.
  - split; [rewrite Hid|rewrite Hrole]; reflexivity.
Defined.

(** X4: the two maps of a cache do not interfere: the credential methods
    of the thing cache leave ViewGroup as it was and its group methods
    leave ID as it was; the org methods of the group cache leave ViewRole
    and GroupMemberships as they were and its role methods leave ViewOrg
    as it was. *)
Theorem maps_do_not_interfere tcm gcm order k key value memberID :
  thingCacheMock.ViewGroup (thingCacheMock.Save tcm key value).1 k
    = thingCacheMock.ViewGroup tcm k ∧
  thingCacheMock.ViewGroup (thingCacheMock.Remove order tcm value).1 k
    = thingCacheMock.ViewGroup tcm k ∧
  thingCacheMock.ID (thingCacheMock.SaveGroup tcm key value).1 k
    = thingCacheMock.ID tcm k ∧
  thingCacheMock.ID (thingCacheMock.RemoveGroup tcm key).1 k
    = thingCacheMock.ID tcm k ∧
  groupCacheMock.ViewRole (groupCacheMock.SaveOrg gcm key value).1 k memberID
    = groupCacheMock.ViewRole gcm k memberID ∧
  groupCacheMock.ViewRole (groupCacheMock.RemoveOrg gcm key).1 k memberID
    = groupCacheMock.ViewRole gcm k memberID ∧
  groupCacheMock.GroupMemberships order (groupCacheMock.SaveOrg gcm key value).1 memberID
    = groupCacheMock.GroupMemberships order gcm memberID ∧
  groupCacheMock.GroupMemberships order (groupCacheMock.RemoveOrg gcm key).1 memberID
    = groupCacheMock.GroupMemberships order gcm memberID ∧
  groupCacheMock.ViewOrg (groupCacheMock.SaveRole gcm key memberID value).1 k
    = groupCacheMock.ViewOrg gcm k ∧
  groupCacheMock.ViewOrg (groupCacheMock.RemoveRole gcm key memberID).1 k
    = groupCacheMock.ViewOrg gcm k.
Proof. repeat split. Qed.

(** X5: when at most one credential key holds the identifier, Remove(id)
    leaves no key resolving to it, in every range order. *)
Theorem Remove_unique_clears tcm order id k :
  RangeOrder order →
  (∀ k1 k2, thingCacheMock.things tcm !! k1 = Some id →
            thingCacheMock.things tcm !! k2 = Some id → k1 = k2) →
  thingCacheMock.ID (thingCacheMock.Remove order tcm id).1 k ≠ (id, None).
Proof.
  intros Ho Huniq. unfold thingCacheMock.ID.
  destruct (Remove_things_cases order tcm id Ho) as [[Hno ->]|[k0 [Hk0 ->]]].
  - destruct (thingCacheMock.things tcm !! k) as [v|] eqn:Hk; [|done].
    intros [= ->]. by destruct (Hno k).
  - destruct (decide (k = k0)) as [->|Hne].
    + by rewrite lookup_delete_eq.
    + rewrite lookup_delete_ne by done.
      destruct (thingCacheMock.things tcm !! k) as [v|] eqn:Hk; [|done].
      intros [= ->]. by destruct Hne; apply Huniq.
Qed.

Lemma Remove_unique_clears_witness :
  let tcm := (thingCacheMock.Save
                (thingCacheMock.Save thingCacheMock.NewThingCache "key-A" "dev-1").1
                "key-B" "dev-2").1 in
  thingCacheMock.ID (thingCacheMock.Remove reverse tcm "dev-1").1 "key-A"
    ≠ ("dev-1", None).
Proof.
  intros tcm.
  apply (Remove_unique_clears tcm reverse "dev-1" "key-A").
  - exact reverse_Permutation.
  - intros k1 k2 H1 H2.
    destruct (decide (k1 = "key-A")) as [->|N1];
      destruct (decide (k2 = "key-A")) as [->|N2]; [reflexivity| | |].
    + destruct (decide (k2 = "key-B")) as [->|N2'].
      * vm_compute in H2. discriminate.
      * unfold tcm in H2. simpl in H2.
        rewrite !lookup_insert_ne, lookup_empty in H2 by done. discriminate.
    + destruct (decide (k1 = "key-B")) as [->|N1'].
      * vm_compute in H1. discriminate.
      * unfold tcm in H1. simpl in H1.
        rewrite !lookup_insert_ne, lookup_empty in H1 by done. discriminate.
    + destruct (decide (k1 = "key-B")) as [->|N1'].
      * vm_compute in H1. discriminate.
      * unfold tcm in H1. simpl in H1.
        rewrite !lookup_insert_ne, lookup_empty in H1 by done. discriminate.
Defined.

(** X6: Remove(id) touches only an entry holding id: a key resolving to
    another identifier resolves to it afterwards, and what a key resolves
    to afterwards it resolved to before (nothing is added or changed). *)
Theorem Remove_frame tcm order id k v :
  RangeOrder order →
  (thingCacheMock.ID tcm k = (v, None) → v ≠ id →
   thingCacheMock.ID (thingCacheMock.Remove order tcm id).1 k = (v, None)) ∧
  (thingCacheMock.ID (thingCacheMock.Remove order tcm id).1 k = (v, None) →
   thingCacheMock.ID tcm k = (v, None)).
Proof.
  intros Ho. unfold thingCacheMock.ID.
  destruct (Remove_things_cases order tcm id Ho) as [[Hno ->]|[k0 [Hk0 ->]]];
    [done|].
  destruct (decide (k = k0)) as [->|Hne].
  - rewrite lookup_delete_eq, Hk0. split; [|done]. by intros [= ->] Hv.
  - by rewrite lookup_delete_ne.
Qed.

Lemma Remove_frame_witness :
  let tcm := (thingCacheMock.Save
                (thingCacheMock.Save thingCacheMock.NewThingCache "key-A" "dev-1").1
                "key-B" "dev-2").1 in
  thingCacheMock.ID (thingCacheMock.Remove reverse tcm "dev-1").1 "key-B"
    = ("dev-2", None).
Proof.
  intros tcm.
  destruct (Remove_frame tcm reverse "dev-1" "key-B" "dev-2") as [Hkeep _].
  - exact reverse_Permutation.
  - apply Hkeep; [reflexivity|discriminate].
Defined.

(** X7: when some credential key holds the identifier, Remove(id) deletes
    exactly one entry, and that entry held id: the map shrinks by one. *)
Theorem Remove_deletes_exactly_one tcm order id k0 :
  RangeOrder order →
  thingCacheMock.things tcm !! k0 = Some id →
  (∃ k, thingCacheMock.things tcm !! k = Some id ∧
        thingCacheMock.things (thingCacheMock.Remove order tcm id).1
        = delete k (thingCacheMock.things tcm)) ∧
  S (size (thingCacheMock.things (thingCacheMock.Remove order tcm id).1))
  = size (thingCacheMock.things tcm).
Proof.
  intros Ho Hk0.
  destruct (Remove_things_cases order tcm id Ho) as [[Hno _]|[k [Hk Heq]]].
  - by destruct (Hno k0).
  - split; [by exists k|]. rewrite Heq.
    rewrite map_size_delete_Some by (by rewrite Hk).
    assert (size (thingCacheMock.things tcm) ≠ 0) as Hsz.
    { intros Hz. apply map_size_empty_inv in Hz. rewrite Hz, lookup_empty in Hk. done. }
    lia.
Qed.

Lemma Remove_deletes_exactly_one_witness :
  let tcm := (thingCacheMock.Save
                (thingCacheMock.Save thingCacheMock.NewThingCache "key-A" "dev-1").1
                "key-B" "dev-1").1 in
  S (size (thingCacheMock.things (thingCacheMock.Remove reverse tcm "dev-1").1))
  = size (thingCacheMock.things tcm).
Proof.
  intros tcm.
  apply (Remove_deletes_exactly_one tcm reverse "dev-1" "key-A").
  - exact reverse_Permutation.
  - reflexivity.
Defined.

(** X8: when at most one credential key holds the identifier, the result
    of Remove(id) does not depend on the range order. *)
Theorem Remove_order_independent tcm order1 order2 id :
  RangeOrder order1 → RangeOrder order2 →
  (∀ k1 k2, thingCacheMock.things tcm !! k1 = Some id →
            thingCacheMock.things tcm !! k2 = Some id → k1 = k2) →
  thingCacheMock.Remove order1 tcm id = thingCacheMock.Remove order2 tcm id.
Proof.
  intros Ho1 Ho2 Huniq.
  assert (thingCacheMock.things (thingCacheMock.Remove order1 tcm id).1
          = thingCacheMock.things (thingCacheMock.Remove order2 tcm id).1) as Heq.
  { destruct (Remove_things_cases order1 tcm id Ho1) as [[Hno1 ->]|[k1 [Hk1 ->]]];
      destruct (Remove_things_cases order2 tcm id Ho2) as [[Hno2 ->]|[k2 [Hk2 ->]]].
    - done.
    - by destruct (Hno1 k2).
    - by destruct (Hno2 k1).
    - by rewrite (Huniq k1 k2 Hk1 Hk2). }
  unfold thingCacheMock.Remove in *. simpl in Heq. by rewrite Heq.
Qed.

Lemma Remove_order_independent_witness :
  let tcm := (thingCacheMock.Save
                (thingCacheMock.Save
                   (thingCacheMock.Save thingCacheMock.NewThingCache "key-A" "dev-1").1
                   "key-B" "dev-2").1
                "key-C" "dev-3").1 in
  range (λ l, l) (thingCacheMock.things tcm)
    = [("key-C", "dev-3"); ("key-A", "dev-1"); ("key-B", "dev-2")] ∧
  range reverse (thingCacheMock.things tcm)
    = [("key-B", "dev-2"); ("key-A", "dev-1"); ("key-C", "dev-3")] ∧
  thingCacheMock.Remove reverse tcm "dev-2" = thingCacheMock.Remove (λ l, l) tcm "dev-2".
Proof.
  intros tcm.
  split; [vm_compute; reflexivity|]. split; [vm_compute; reflexivity|].
  apply (Remove_order_independent tcm reverse (λ l, l) "dev-2").
  - exact reverse_Permutation.
  - intros l. reflexivity.
  - intros k1 k2 H1 H2.
    assert (∀ k, thingCacheMock.things tcm !! k = Some "dev-2" → k = "key-B") as Hone.
    { intros k Hk. unfold tcm in Hk. simpl in Hk.
      destruct (decide (k = "key-C")) as [->|NC]; [vm_compute in Hk; discriminate|].
      destruct (decide (k = "key-B")) as [->|NB]; [reflexivity|].
      destruct (decide (k = "key-A")) as [->|NA]; [vm_compute in Hk; discriminate|].
      rewrite !lookup_insert_ne, lookup_empty in Hk by done. discriminate. }
    rewrite (Hone k1 H1), (Hone k2 H2). reflexivity.
Defined.

(** X9: Save(key, id) of a new key with an identifier no key holds yet,
    followed by Remove(id), gives the cache back as it was. *)
Theorem Save_then_Remove_restores tcm order key id :
  RangeOrder order →
  thingCacheMock.things tcm !! key = None →
  (∀ k, thingCacheMock.things tcm !! k ≠ Some id) →
  (thingCacheMock.Remove order (thingCacheMock.Save tcm key id).1 id).1 = tcm.
Proof.
  intros Ho Hkey Hno.
  assert (thingCacheMock.things
            (thingCacheMock.Remove order (thingCacheMock.Save tcm key id).1 id).1
          = thingCacheMock.things tcm) as Heq.
  { destruct (Remove_things_cases order (thingCacheMock.Save tcm key id).1 id Ho)
      as [[Hno' _]|[k [Hk ->]]].
    - destruct (Hno' key). simpl. by rewrite lookup_insert_eq.
    - simpl in *. destruct (decide (k = key)) as [->|Hne].
      + by rewrite delete_insert_id.
      + rewrite lookup_insert_ne in Hk by done. by destruct (Hno k). }
  destruct tcm as [th gr]. unfold thingCacheMock.Remove in *. simpl in *.
  by rewrite Heq.
Qed.

Lemma Save_then_Remove_restores_witness :
  let tcm := (thingCacheMock.SaveGroup thingCacheMock.NewThingCache "dev-1" "grp-9").1 in
  (thingCacheMock.Remove reverse (thingCacheMock.Save tcm "key-A" "dev-1").1 "dev-1").1
  = tcm.
Proof.
  intros tcm.
  apply (Save_then_Remove_restores tcm reverse "key-A" "dev-1").
  - exact reverse_Permutation.
  - reflexivity.
  - intros k. unfold tcm. simpl. rewrite lookup_empty. discriminate.
Defined.

(** X10: in the keyed maps, saving under a key that has no entry and then
    removing that key gives the cache back as it was (for roles: the
    joined key of the pair has no entry). *)
Theorem keyed_Save_then_Remove_restores tcm ccm gcm key value memberID :
  (thingCacheMock.groups tcm !! key = None →
   (thingCacheMock.RemoveGroup (thingCacheMock.SaveGroup tcm key value).1 key).1 = tcm) ∧
  (profileCacheMock.groups ccm !! key = None →
   (profileCacheMock.RemoveGroup (profileCacheMock.SaveGroup ccm key value).1 key).1
   = ccm) ∧
  (groupCacheMock.orgs gcm !! key = None →
   (groupCacheMock.RemoveOrg (groupCacheMock.SaveOrg gcm key value).1 key).1 = gcm) ∧
  (groupCacheMock.roles gcm !! groupCacheMock.rKey key memberID = None →
   (groupCacheMock.RemoveRole
      (groupCacheMock.SaveRole gcm key memberID value).1 key memberID).1 = gcm).
Proof.
  destruct tcm as [th gr], ccm as [pg], gcm as [og rl].
  unfold thingCacheMock.RemoveGroup, profileCacheMock.RemoveGroup,
    groupCacheMock.RemoveOrg, groupCacheMock.RemoveRole; simpl.
  repeat split; intros Hk; by rewrite delete_insert_id.
Qed.

Lemma keyed_Save_then_Remove_restores_witness :
  (groupCacheMock.RemoveRole
     (groupCacheMock.SaveRole groupCacheMock.NewGroupCache "grp-9" "user-7" "editor").1
     "grp-9" "user-7").1 = groupCacheMock.NewGroupCache.
Proof.
  apply (keyed_Save_then_Remove_restores thingCacheMock.NewThingCache
           profileCacheMock.NewProfileCache groupCacheMock.NewGroupCache
           "grp-9" "editor" "user-7").
  reflexivity.
Defined.

(** ** groupCacheMock.GroupMemberships on arbitrary identifiers *)

(** A key adds [g] to the answer for [memberID] exactly when it reads
    [g:memberID] or [g:memberID:rest] with [g] and [memberID] free of the
    separator. *)
Lemma contributes_Some k memberID g :
  groupCacheMock.contributes memberID k = Some g ↔
  sepfree g ∧ sepfree memberID ∧
  (k = groupCacheMock.rKey g memberID ∨
   ∃ rest, k = groupCacheMock.rKey g (groupCacheMock.rKey memberID rest)).
Proof.
  split.
  - unfold groupCacheMock.contributes.
    pose proof (strings_Split_parts_sepfree k) as Hfree.
    pose proof (join_sep_Split k) as Hjoin.
    destruct (strings_Split k sep) as [|p0 [|p1 ps]]; simpl; [done|done|].
    case_decide as Hp1; [|done]. intros [= ->]. subst p1.
    apply Forall_cons in Hfree as [Hg Hfree].
    apply Forall_cons in Hfree as [Hm _].
    split; [done|]. split; [done|].
    rewrite join_sep_cons in Hjoin. destruct ps as [|q rest].
    + left. by rewrite <- Hjoin.
    + right. exists (join_sep (q :: rest)). by rewrite <- Hjoin, join_sep_cons.
  - intros (Hg & Hm & [->|[rest ->]]).
    + rewrite contributes_rKey by done. by rewrite decide_True.
    + unfold groupCacheMock.contributes.
      rewrite !strings_Split_rKey by done. simpl. by rewrite decide_True.
Qed.

Lemma ViewRole_succeeds gcm g m :
  (groupCacheMock.ViewRole gcm g m).2 = None
  ↔ is_Some (groupCacheMock.roles gcm !! groupCacheMock.rKey g m).
Proof.
  unfold groupCacheMock.ViewRole.
  destruct (groupCacheMock.roles gcm !! groupCacheMock.rKey g m) as [r|]; simpl.
  - split; [by eexists|done].
  - split; [done|]. by intros [? ?].
Qed.

Lemma length_omap_le {A B : Type} (f : A → option B) (l : list A) :
  (length (omap f l) ≤ length l)%nat.
Proof.
  induction l as [|x l IH]; csimpl; [done|]. destruct (f x); csimpl; lia.
Qed.

(** X11: what GroupMemberships returns for any identifiers, in a state
    reached from a fresh cache: the group g is in the list exactly when g
    and memberID are free of the separator and a role is stored for
    (g, memberID) or for (g, memberID:rest) for some rest. *)
Theorem GroupMemberships_characterised cs order memberID :
  RangeOrder order →
  ∃ groups,
    groupCacheMock.GroupMemberships order (groupCacheMock.run cs) memberID
      = Done (groups, None) ∧
    ∀ g, g ∈ groups ↔
      sepfree g ∧ sepfree memberID ∧
      ((groupCacheMock.ViewRole (groupCacheMock.run cs) g memberID).2 = None ∨
       ∃ rest,
         (groupCacheMock.ViewRole (groupCacheMock.run cs) g
            (groupCacheMock.rKey memberID rest)).2 = None).
Proof.
  intros Ho. eexists. split; [by apply GroupMemberships_returns|].
  intros g. rewrite list_elem_of_omap. setoid_rewrite ViewRole_succeeds. split.
  - intros (k & Hk & Hc). apply (RangeOrder_key _ order k Ho) in Hk.
    apply contributes_Some in Hc as (Hg & Hm & [->|[rest ->]]).
    + split; [done|]. split; [done|]. by left.
    + split; [done|]. split; [done|]. right. by exists rest.
  - intros (Hg & Hm & [Hk|[rest Hk]]).
    + exists (groupCacheMock.rKey g memberID). split.
      * by apply (RangeOrder_key _ order _ Ho).
      * apply contributes_Some. split; [done|]. split; [done|]. by left.
    + exists (groupCacheMock.rKey g (groupCacheMock.rKey memberID rest)). split.
      * by apply (RangeOrder_key _ order _ Ho).
      * apply contributes_Some. split; [done|]. split; [done|]. right. by exists rest.
Qed.

Lemma GroupMemberships_characterised_witness :
  ∃ groups,
    groupCacheMock.GroupMemberships reverse
      (groupCacheMock.run [groupCacheMock.CallSaveRole "grp-9" "user:7" "editor"]) "user"
      = Done (groups, None) ∧
    "grp-9" ∈ groups.
Proof.
  destruct (GroupMemberships_characterised
              [groupCacheMock.CallSaveRole "grp-9" "user:7" "editor"] reverse "user")
    as (groups & Hret & Hin).
  - exact reverse_Permutation.
  - exists groups. split; [exact Hret|]. apply Hin.
    split; [reflexivity|]. split; [reflexivity|].
    right. exists "7". reflexivity.
Defined.

(** X12: the range order only permutes the answer: in a state reached
    from a fresh cache, GroupMemberships under two range orders returns
    two lists that are permutations of each other. *)
Theorem GroupMemberships_order_permutes cs order1 order2 memberID :
  RangeOrder order1 → RangeOrder order2 →
  ∃ groups1 groups2,
    groupCacheMock.GroupMemberships order1 (groupCacheMock.run cs) memberID
      = Done (groups1, None) ∧
    groupCacheMock.GroupMemberships order2 (groupCacheMock.run cs) memberID
      = Done (groups2, None) ∧
    groups1 ≡ₚ groups2.
Proof.
  intros Ho1 Ho2. do 2 eexists.
  split; [by apply GroupMemberships_returns|].
  split; [by apply GroupMemberships_returns|].
  apply omap_Permutation, fmap_Permutation. unfold range.
  by rewrite (Ho1 _), (Ho2 _).
Qed.

Lemma GroupMemberships_order_permutes_witness :
  let cs := [groupCacheMock.CallSaveRole "grp-1" "user-5" "viewer";
             groupCacheMock.CallSaveRole "grp-2" "user-5" "admin"] in
  ∃ groups1 groups2,
    groupCacheMock.GroupMemberships reverse (groupCacheMock.run cs) "user-5"
      = Done (groups1, None) ∧
    groupCacheMock.GroupMemberships (λ l, l) (groupCacheMock.run cs) "user-5"
      = Done (groups2, None) ∧
    groups1 ≡ₚ groups2.
Proof.
  intros cs.
  apply (GroupMemberships_order_permutes cs reverse (λ l, l) "user-5").
  - exact reverse_Permutation.
  - intros l. reflexivity.
Defined.

(** X13: GroupMemberships returns at most one group per stored role entry,
    and the empty list when no role is stored. *)
Theorem GroupMemberships_length_bound cs order memberID :
  RangeOrder order →
  ∃ groups,
    groupCacheMock.GroupMemberships order (groupCacheMock.run cs) memberID
      = Done (groups, None) ∧
    (length groups ≤ size (groupCacheMock.roles (groupCacheMock.run cs)))%nat ∧
    (groupCacheMock.roles (groupCacheMock.run cs) = ∅ → groups = []).
Proof.
  intros Ho. eexists. split; [by apply GroupMemberships_returns|].
  assert (length (omap (groupCacheMock.contributes memberID)
                    (range order (groupCacheMock.roles (groupCacheMock.run cs))).*1)
          ≤ size (groupCacheMock.roles (groupCacheMock.run cs)))%nat as Hlen.
  { etrans; [apply length_omap_le|].
    rewrite length_fmap. unfold range.
    rewrite (Permutation_length (Ho _)), length_map_to_list. done. }
  split; [done|]. intros Hempty. rewrite Hempty, map_size_empty in Hlen.
  rewrite Hempty. by apply length_zero_iff_nil, Nat.le_0_r.
Qed.

Lemma GroupMemberships_length_bound_witness :
  ∃ groups,
    groupCacheMock.GroupMemberships reverse
      (groupCacheMock.run [groupCacheMock.CallSaveOrg "grp-9" "org-3"]) "user-7"
      = Done (groups, None) ∧
    groups = [].
Proof.
  destruct (GroupMemberships_length_bound
              [groupCacheMock.CallSaveOrg "grp-9" "org-3"] reverse "user-7")
    as (groups & Hret & _ & Hnil).
  - exact reverse_Permutation.
  - exists groups. split; [exact Hret|]. apply Hnil. reflexivity.
Defined.

(** X14: a saved role shows in the membership query: after
    SaveRole(g, m, role) with g and m free of the separator, on any state
    reached from a fresh cache, GroupMemberships(m) returns a list holding
    g, whatever else is stored. *)
Theorem SaveRole_then_GroupMemberships cs order g m role :
  RangeOrder order → sepfree g → sepfree m →
  ∃ groups,
    groupCacheMock.GroupMemberships order
      (groupCacheMock.SaveRole (groupCacheMock.run cs) g m role).1 m
      = Done (groups, None) ∧
    g ∈ groups.
Proof.
  intros Ho Hg Hm.
  change (groupCacheMock.SaveRole (groupCacheMock.run cs) g m role).1
    with (groupCacheMock.step (groupCacheMock.run cs) (groupCacheMock.CallSaveRole g m role)).
  rewrite <- run_snoc.
  eexists. split; [by apply GroupMemberships_returns|].
  rewrite list_elem_of_omap. exists (groupCacheMock.rKey g m). split.
  - apply (RangeOrder_key _ order _ Ho). rewrite run_snoc. simpl.
    by rewrite lookup_insert_eq.
  - rewrite contributes_rKey by done. by rewrite decide_True.
Qed.

Lemma SaveRole_then_GroupMemberships_witness :
  ∃ groups,
    groupCacheMock.GroupMemberships reverse
      (groupCacheMock.SaveRole
         (groupCacheMock.run [groupCacheMock.CallSaveRole "grp:1" "user:5" "viewer"])
         "grp-9" "user-7" "editor").1 "user-7"
      = Done (groups, None) ∧
    "grp-9" ∈ groups.
Proof.
  apply (SaveRole_then_GroupMemberships
           [groupCacheMock.CallSaveRole "grp:1" "user:5" "viewer"] reverse
           "grp-9" "user-7" "editor").
  - exact reverse_Permutation.
  - reflexivity.
  - reflexivity.
Defined.

(** ** loggingMiddleware *)




(** X16: a panic of the wrapped service is logged as a success: the
    deferred function still sees a nil error, so Publish makes one Info
    call whose text ends in "without errors." and the panic goes on to the
    caller. *)
Theorem loggingMiddleware_panic_logged_as_success {S : Type}
    (impl : loggingMiddleware.Service S) errText took
    (lm : loggingMiddleware.t S) key (msg : loggingMiddleware.Message) :
  (loggingMiddleware.svcPublish impl (loggingMiddleware.svc lm) key msg).2 = Panic →
  (loggingMiddleware.Publish impl errText took lm key msg).2 = Panic ∧
  ∃ message,
    loggingMiddleware.logger (loggingMiddleware.Publish impl errText took lm key msg).1
    = (loggingMiddleware.logger lm
       ++ [(loggingMiddleware.LevelInfo, message +:+ " without errors.")])%list.
Proof.
  unfold loggingMiddleware.Publish.
  destruct (loggingMiddleware.svcPublish impl (loggingMiddleware.svc lm) key msg)
    as [s1 r1].
  simpl. intros ->. split; [done|]. by eexists.
Qed.

Lemma loggingMiddleware_panic_logged_as_success_witness :
  let impl := loggingMiddleware.mkService nat
                (λ s _ _, (s, Panic)) (λ s _ _ _ _, (s, Done None))
                (λ s _ _ _ _, (s, Done None)) in
  let lm := loggingMiddleware.mk [] 0 in
  let msg := loggingMiddleware.mkMessage "prof-1" "temp" in
  (loggingMiddleware.Publish impl (λ _, "not found") "2ms" lm "key-A" msg).2 = Panic ∧
  loggingMiddleware.logger
    (loggingMiddleware.Publish impl (λ _, "not found") "2ms" lm "key-A" msg).1
  = [(loggingMiddleware.LevelInfo,
      "Method publish to prof-1.temp took 2ms to complete without errors.")].
Proof.
  intros impl lm msg.
  destruct (loggingMiddleware_panic_logged_as_success impl (λ _, "not found") "2ms"
              lm "key-A" msg) as [Hres _].
  - reflexivity.
  - split; [exact Hres|reflexivity].
Defined.

(** The three log lines on a service that fails to publish and succeeds
    otherwise. *)
Example loggingMiddleware_lines :
  let impl := loggingMiddleware.mkService nat
                (λ s _ _, (s, Done (Some ErrNotFound))) (λ s _ _ _ _, (s, Done None))
                (λ s _ _ _ _, (s, Done None)) in
  let lm := loggingMiddleware.mk [] 0 in
  loggingMiddleware.logger
    (loggingMiddleware.Publish impl (λ _, "not found") "2ms" lm "key-A"
       (loggingMiddleware.mkMessage "prof-1" "")).1
  = [(loggingMiddleware.LevelWarn,
      "Method publish to prof-1 took 2ms to complete with error: not found.")] ∧
  loggingMiddleware.logger
    (loggingMiddleware.Subscribe impl (λ _, "not found") "2ms" lm "key-A"
       "prof-1" "temp" (loggingMiddleware.mkClient (Done "tok"))).1
  = [(loggingMiddleware.LevelInfo,
      "Method subscribe for client tok took 2ms to complete without errors.")] ∧
  loggingMiddleware.logger
    (loggingMiddleware.Unsubscribe impl (λ _, "not found") "2ms" lm "key-A"
       "prof-1" "temp" "tok").1
  = [(loggingMiddleware.LevelInfo,
      "Method unsubscribe for the client tok took 2ms to complete without errors.")].
Proof. vm_compute. done. Qed.
